(** * Verification model of the idea-generator orchestrator and reply parsers

    Shallow embedding of [src/unnamed/part_004] (the server-side
    [openai-helpers] module): the line-oriented reply parsers
    [parseHMWThemes], [parseFeatureThemes], [parseLayoutThemes],
    [parseUserSegments], [parseSketchConcepts], the prompt extraction of
    [generateSketchPrompts], the image stage [generateImages], the concept
    deriver [generateSketchConcepts] and the orchestrator [generateAll].

    Modelling choices.
    - A JS string is its sequence of UTF-16 code units, [list Z].
    - [toLowerCase] is modelled on ASCII letters only (other code units are
      left unchanged); it is exact on ASCII text, which is what the sample
      replies used below are.
    - A plain JS object used as a map ([const themes = {}]) is an
      association list in insertion order.  Reading a key that is not an own
      property but is inherited from [Object.prototype] ([toString],
      [constructor], ...) yields a truthy non-array value, which is modelled
      too, since the parsers then throw on [.push].  The enumeration order
      of integer-like keys by [Object.keys] is not modelled: no statement
      below depends on the order of user-named themes.
    - Thrown exceptions and rejected promises are the [Exn] side of a sum. *)

From Stdlib Require Import ZArith List Bool Lia.
From Stdlib Require Import Strings.String Strings.Ascii.
Import ListNotations.
Open Scope Z_scope.

(** ** JS strings *)

Definition jstr := list Z.

Fixpoint js (s : String.string) : jstr :=
  match s with
  | String.EmptyString => []
  | String.String c s' => Z.of_nat (Ascii.nat_of_ascii c) :: js s'
  end.

Definition BULLET : Z := 8226.   (* U+2022 '•' *)
Definition EMDASH : Z := 8212.   (* U+2014 '—' *)
Definition NL : Z := 10.
Definition COLON : Z := 58.

(** [String.prototype.trim] strips WhiteSpace and LineTerminator code units. *)
Definition is_js_space (c : Z) : bool :=
  existsb (Z.eqb c)
    [9; 10; 11; 12; 13; 32; 160; 5760; 8192; 8193; 8194; 8195; 8196; 8197;
     8198; 8199; 8200; 8201; 8202; 8232; 8233; 8239; 8287; 12288; 65279].

Fixpoint trim_start (s : jstr) : jstr :=
  match s with
  | [] => []
  | c :: s' => if is_js_space c then trim_start s' else s
  end.

Definition trim (s : jstr) : jstr := rev (trim_start (rev (trim_start s))).

Definition lower_unit (c : Z) : Z := if (65 <=? c) && (c <=? 90) then c + 32 else c.

Definition toLowerCase (s : jstr) : jstr := map lower_unit s.


Fixpoint startsWith (s p : jstr) : bool :=
  match p, s with
  | [], _ => true
  | c :: p', d :: s' => Z.eqb c d && startsWith s' p'
  | _ :: _, [] => false
  end.

Fixpoint includes (s sub : jstr) : bool :=
  startsWith s sub ||
  match s with
  | [] => false
  | _ :: s' => includes s' sub
  end.

Definition is_digit (c : Z) : bool := (48 <=? c) && (c <=? 57).

(** [/\d/.test(s)] *)
Definition has_digit (s : jstr) : bool := existsb is_digit s.

(** [/\d/.test(s[0])] on a non-empty string. *)
Definition first_is_digit (s : jstr) : bool :=
  match s with
  | c :: _ => is_digit c
  | [] => false
  end.

(** [s.split(sep)] for a non-empty separator: leftmost, non-overlapping
    occurrences; [cur] is the current piece, reversed. *)
Fixpoint split_go (fuel : nat) (sep s cur : jstr) : list jstr :=
  match fuel with
  | O => [rev cur ++ s]
  | S fuel' =>
      match s with
      | [] => [rev cur]
      | c :: s' =>
          if startsWith s sep
          then rev cur :: split_go fuel' sep (skipn (List.length sep) s) []
          else split_go fuel' sep s' (c :: cur)
      end
  end.

Definition split (sep s : jstr) : list jstr := split_go (S (List.length s)) sep s [].

(** [s.split(sep, 2)] *)
Definition split2 (sep s : jstr) : list jstr := firstn 2 (split sep s).

Definition nth_str (i : nat) (l : list jstr) : jstr := nth i l [].

(** [arr.join(sep)] *)
Fixpoint join (sep : jstr) (l : list jstr) : jstr :=
  match l with
  | [] => []
  | [x] => x
  | x :: l' => x ++ sep ++ join sep l'
  end.

(** JS truthiness of a string. *)
Definition truthy (s : jstr) : bool :=
  match s with [] => false | _ => true end.

(** Truthiness of a variable holding a string or [null]. *)
Definition truthy_opt (o : option jstr) : bool :=
  match o with Some s => truthy s | None => false end.

(** ** Exceptions and results *)

Inductive Exn :=
| ApiError (inner : option jstr) (message : jstr)
    (* an SDK error: [error.error?.message] and [error.message] *)
| JsError (message : jstr)          (* [new Error(message)] *)
| TypeError (message : jstr).       (* a runtime TypeError *)

Definition exn_message (e : Exn) : jstr :=
  match e with
  | ApiError _ m | JsError m | TypeError m => m
  end.

Definition res (A : Type) := (Exn + A)%type.

Definition bind {A B} (m : res A) (k : A -> res B) : res B :=
  match m with
  | inl e => inl e
  | inr a => k a
  end.

Notation "'let*' x := m 'in' k" := (bind m (fun x => k))
  (at level 200, x pattern, m at level 100, k at level 200).

Fixpoint fold_res {A S} (f : S -> A -> res S) (l : list A) (s : S) : res S :=
  match l with
  | [] => inr s
  | a :: l' => let* s' := f s a in fold_res f l' s'
  end.

(** ** Plain JS objects used as maps *)

Module JsObj.

(** Own keys, in insertion order. *)
Definition t (V : Type) := list (jstr * V).

(** Property names inherited from [Object.prototype]. *)
Definition proto_keys : list jstr :=
  map js ["constructor"; "__defineGetter__"; "__defineSetter__";
          "hasOwnProperty"; "__lookupGetter__"; "__lookupSetter__";
          "isPrototypeOf"; "propertyIsEnumerable"; "toString"; "valueOf";
          "__proto__"; "toLocaleString"]%string.

Fixpoint jstr_eqb (a b : jstr) : bool :=
  match a, b with
  | [], [] => true
  | x :: a', y :: b' => Z.eqb x y && jstr_eqb a' b'
  | _, _ => false
  end.

(** What [obj[k]] reads. *)
Inductive lookup_result (V : Type) :=
| Own (v : V)
| Inherited
| Undefined.
Arguments Own {V} v.
Arguments Inherited {V}.
Arguments Undefined {V}.

Fixpoint get {V} (o : t V) (k : jstr) : lookup_result V :=
  match o with
  | [] => if existsb (jstr_eqb k) proto_keys then Inherited else Undefined
  | (k', v) :: o' => if jstr_eqb k k' then Own v else get o' k
  end.

(** [obj[k] = v] on a key that is not [__proto__]: overwrite in place or
    append. *)
Fixpoint set {V} (o : t V) (k : jstr) (v : V) : t V :=
  match o with
  | [] => [(k, v)]
  | (k', v') :: o' => if jstr_eqb k k' then (k', v) :: o' else (k', v') :: set o' k v
  end.

(** [if (!obj[k]) { obj[k] = [] }] (an array is truthy). *)
Definition ensure {A} (o : t (list A)) (k : jstr) : t (list A) :=
  match get o k with
  | Undefined => set o k []
  | _ => o
  end.

(** [obj[k].push(x)] *)
Definition push {A} (o : t (list A)) (k : jstr) (x : A) : res (t (list A)) :=
  match get o k with
  | Own l => inr (set o k (l ++ [x]))
  | Inherited => inl (TypeError (js "themes[currentTheme].push is not a function"))
  | Undefined => inl (TypeError (js "Cannot read properties of undefined (reading 'push')"))
  end.

(** [Object.keys(obj).length] *)
Definition keys_length {V} (o : t V) : nat := List.length o.

End JsObj.

(** ** Shared pieces of the theme grammars *)

(** [/^[1-5]\./.test(s)] *)
Definition starts_with_1_to_5_dot (s : jstr) : bool :=
  match s with
  | c :: d :: _ => (49 <=? c) && (c <=? 53) && Z.eqb d 46
  | _ => false
  end.

(** [s.startsWith('•') || s.startsWith('-')] *)
Definition starts_with_bullet (s : jstr) : bool :=
  startsWith s [BULLET] || startsWith s (js "-").

(** The case-insensitive marker-stripping loop of the reframe grammar:
    the first matching prefix is removed, then one following colon. *)
Fixpoint strip_prefix_ci (prefixes : list jstr) (cleaned : jstr) : jstr :=
  match prefixes with
  | [] => cleaned
  | p :: ps =>
      if startsWith (toLowerCase cleaned) (toLowerCase p) then
        let c := trim (skipn (List.length p) cleaned) in
        if startsWith c [COLON] then trim (skipn 1 c) else c
      else strip_prefix_ci ps cleaned
  end.

(** The case-sensitive marker-stripping loop of the layout grammar. *)
Fixpoint strip_prefix (prefixes : list jstr) (title : jstr) : jstr :=
  match prefixes with
  | [] => title
  | p :: ps =>
      if startsWith title p then trim (skipn (List.length p) title)
      else strip_prefix ps title
  end.

Definition num_prefixes : list jstr := map js ["1."; "2."; "3."; "4."; "5."]%string.

(** [['1.', '2.', '3.', '4.', '5.', '•', '-']] *)
Definition item_prefixes : list jstr := num_prefixes ++ [[BULLET]; js "-"].

(** [['1.', '2.', '3.', '4.', '5.', '•', '-', 'HMW', 'How might we']] *)
Definition hmw_prefixes : list jstr := item_prefixes ++ [js "HMW"; js "How might we"].

Definition HOW_MIGHT_WE : jstr := js "How might we".

(** Text before the first colon, [trimmed.split(':')[0]]. *)
Definition before_colon (s : jstr) : jstr := nth_str 0 (split [COLON] s).

(** Theme-header test shared by the theme grammars:
    [trimmed.toLowerCase().startsWith('theme') && trimmed.includes(':')]. *)
Definition is_theme_header (trimmed : jstr) : bool :=
  startsWith (toLowerCase trimmed) (js "theme") && includes trimmed [COLON].

(** The theme name of a header line, when [split(':', 2)] has two parts. *)
Definition header_name (trimmed : jstr) : option jstr :=
  let parts := split2 [COLON] trimmed in
  if Nat.eqb (List.length parts) 2 then Some (trim (nth_str 1 parts)) else None.

(** ** Reframe grammar: [parseHMWThemes] *)

Module HMW.

Record state := mk { themes : JsObj.t (list jstr); currentTheme : option jstr }.

Definition init : state := mk [] None.

(** Lines 115-131: strip a marker and normalise to the "How might we" form;
    [None] when the statement is dropped. *)
Definition normalize (trimmed : jstr) : option jstr :=
  let cleaned := strip_prefix_ci hmw_prefixes trimmed in
  if truthy cleaned &&
     (startsWith (toLowerCase cleaned) (js "how") || (10 <? List.length cleaned)%nat)
  then Some (if startsWith (toLowerCase cleaned) (js "how might we") then cleaned
             else js "How might we " ++ toLowerCase cleaned)
  else None.

(** One iteration of the [for (const line of lines)] loop. *)
Definition step (st : state) (line : jstr) : res state :=
  let trimmed := trim line in
  if negb (truthy trimmed) then inr st
  else if is_theme_header trimmed then
    match header_name trimmed with
    | Some ct => inr (mk (JsObj.ensure (themes st) ct) (Some ct))
    | None => inr st
    end
  else if includes trimmed [COLON] && negb (has_digit (before_colon trimmed)) then
    let pt := trim (before_colon trimmed) in
    if (List.length pt <? 50)%nat then inr (mk (JsObj.ensure (themes st) pt) (Some pt))
    else inr st
  else
    match currentTheme st with
    | Some ct =>
        if truthy ct then
          match normalize trimmed with
          | Some c => let* th := JsObj.push (themes st) ct c in inr (mk th (Some ct))
          | None => inr st
          end
        else inr st
    | None => inr st
    end.

(** Tier 1: the [.filter] of lines 139-149. *)
Definition fallback_keep (line : jstr) : bool :=
  let trimmed := trim line in
  truthy trimmed &&
  (starts_with_1_to_5_dot trimmed || startsWith trimmed [BULLET] ||
   startsWith trimmed (js "-") || startsWith (toLowerCase trimmed) (js "hmw") ||
   startsWith (toLowerCase trimmed) (js "how")).

(** Tier 1: the [.map] of lines 150-165. *)
Definition fallback_clean (stmt : jstr) : jstr :=
  let cleaned := strip_prefix_ci hmw_prefixes (trim stmt) in
  if truthy cleaned && negb (startsWith (toLowerCase cleaned) (js "how might we"))
  then js "How might we " ++ toLowerCase cleaned
  else cleaned.

Definition fallback_statements (content : jstr) : list jstr :=
  filter truthy (map fallback_clean (filter fallback_keep (split [NL] content))).

(** Lines 168-176: buckets of four, the third takes the rest. *)
Definition bucket (themes : JsObj.t (list jstr)) (statements : list jstr)
  : JsObj.t (list jstr) :=
  let t1 := JsObj.set themes (js "Reframing") (firstn 4 statements) in
  let t2 := if (4 <? List.length statements)%nat
            then JsObj.set t1 (js "Exploration") (firstn 4 (skipn 4 statements)) else t1 in
  if (8 <? List.length statements)%nat
  then JsObj.set t2 (js "Innovation") (skipn 8 statements) else t2.

Definition placeholder : list jstr :=
  map js ["How might we approach this challenge from a user-centered perspective?";
          "How might we leverage technology to solve this problem?";
          "How might we create sustainable solutions for this challenge?"]%string.

(** The primary pass, lines 88-133. *)
Definition primary (content : jstr) : res (JsObj.t (list jstr)) :=
  let* st := fold_res step (split [NL] content) init in
  inr (themes st).

Definition parseHMWThemes (content : jstr) : res (JsObj.t (list jstr)) :=
  let* themes1 := primary content in
  let themes2 :=
    if Nat.eqb (JsObj.keys_length themes1) 0 then
      let statements := fallback_statements content in
      if (0 <? List.length statements)%nat then bucket themes1 statements else themes1
    else themes1 in
  let themes3 :=
    if Nat.eqb (JsObj.keys_length themes2) 0
    then JsObj.set themes2 (js "Design Exploration") placeholder
    else themes2 in
  inr themes3.

End HMW.

(** ** Feature grammar: [parseFeatureThemes] *)

Module Feature.

Record feature := mkF { feature_name : jstr; rationale : jstr }.

Record state := mk { themes : JsObj.t (list feature); currentTheme : option jstr }.

Definition init : state := mk [] None.

(** Lines 572-584: split the item text on an em dash, else on [' - ']. *)
Definition record_of (featureText : jstr) : feature :=
  if includes featureText [EMDASH] then
    let parts := split2 [EMDASH] featureText in
    mkF (trim (nth_str 0 parts)) (trim (nth_str 1 parts))
  else if includes featureText (js " - ") then
    let parts := split2 (js " - ") featureText in
    mkF (trim (nth_str 0 parts)) (trim (nth_str 1 parts))
  else mkF featureText [].

(** The loop of lines 570-589: the first matching marker, if any. *)
Fixpoint item_of (prefixes : list jstr) (trimmed : jstr) : option feature :=
  match prefixes with
  | [] => None
  | p :: ps =>
      if startsWith trimmed p then Some (record_of (trim (skipn (List.length p) trimmed)))
      else item_of ps trimmed
  end.

Definition step (st : state) (line : jstr) : res state :=
  let trimmed := trim line in
  if negb (truthy trimmed) then inr st
  else if is_theme_header trimmed then
    match header_name trimmed with
    | Some ct => inr (mk (JsObj.ensure (themes st) ct) (Some ct))
    | None => inr st
    end
  else if includes trimmed [COLON] &&
          negb (has_digit (firstn 10 (before_colon trimmed))) then
    let pt := trim (before_colon trimmed) in
    if (List.length pt <? 50)%nat then inr (mk (JsObj.ensure (themes st) pt) (Some pt))
    else inr st
  else if truthy_opt (currentTheme st) &&
          (first_is_digit trimmed || starts_with_bullet trimmed) then
    match currentTheme st, item_of item_prefixes trimmed with
    | Some ct, Some f => let* th := JsObj.push (themes st) ct f in inr (mk th (Some ct))
    | _, _ => inr st
    end
  else inr st.

Definition placeholder : list feature :=
  [mkF (js "Feature idea 1") (js "Rationale 1");
   mkF (js "Feature idea 2") (js "Rationale 2");
   mkF (js "Feature idea 3") (js "Rationale 3")].

Definition primary (content : jstr) : res (JsObj.t (list feature)) :=
  let* st := fold_res step (split [NL] content) init in
  inr (themes st).

Definition parseFeatureThemes (content : jstr) : res (JsObj.t (list feature)) :=
  let* themes1 := primary content in
  if Nat.eqb (JsObj.keys_length themes1) 0
  then inr (JsObj.set themes1 (js "Feature Ideas") placeholder)
  else inr themes1.

End Feature.

(** ** Layout grammar: [parseLayoutThemes] *)

Module Layout.

(** A layout object [{ title, description }]; every object the parser
    pushes is replaced (or reset to [null]) right after the push, so value
    semantics matches the mutation of [currentLayout.description]. *)
Record layout := mkL { title : jstr; description : jstr }.

Record state := mk {
  themes : JsObj.t (list layout);
  currentTheme : option jstr;
  currentLayout : option layout }.

Definition init : state := mk [] None None.

(** [if (currentLayout && currentTheme && currentLayout.title) { ...push }],
    returning whether the push happened. *)
Definition flush (st : state) : res (bool * JsObj.t (list layout)) :=
  match currentLayout st, currentTheme st with
  | Some l, Some ct =>
      if truthy ct && truthy (title l) then
        let* th := JsObj.push (JsObj.ensure (themes st) ct) ct l in inr (true, th)
      else inr (false, themes st)
  | _, _ => inr (false, themes st)
  end.

(** [currentLayout.description += (currentLayout.description ? ' ' : '') + trimmed] *)
Definition append_desc (l : layout) (trimmed : jstr) : layout :=
  mkL (title l) (description l ++ (if truthy (description l) then js " " else []) ++ trimmed).

Definition step (st : state) (line : jstr) : res state :=
  let trimmed := trim line in
  if negb (truthy trimmed) then
    let* (pushed, th) := flush st in
    inr (mk th (currentTheme st) (if pushed then None else currentLayout st))
  else if is_theme_header trimmed then
    let* (pushed, th) := flush st in
    let cl := if pushed then None else currentLayout st in
    match header_name trimmed with
    | Some ct => inr (mk (JsObj.ensure th ct) (Some ct) cl)
    | None => inr (mk th (currentTheme st) cl)
    end
  else if includes trimmed [COLON] &&
          negb (has_digit (firstn 10 (before_colon trimmed))) then
    let pt := trim (before_colon trimmed) in
    if (List.length pt <? 50)%nat && negb (truthy_opt (currentTheme st)) then
      inr (mk (JsObj.ensure (themes st) pt) (Some pt) (currentLayout st))
    else
      match currentLayout st with
      | None =>
          if truthy_opt (currentTheme st)
          then inr (mk (themes st) (currentTheme st)
                       (Some (mkL (strip_prefix item_prefixes trimmed) [])))
          else inr st
      | Some l => inr (mk (themes st) (currentTheme st) (Some (append_desc l trimmed)))
      end
  else if first_is_digit trimmed || starts_with_bullet trimmed then
    let* (_, th) := flush st in
    inr (mk th (currentTheme st) (Some (mkL (strip_prefix item_prefixes trimmed) [])))
  else
    match currentLayout st with
    | Some l => inr (mk (themes st) (currentTheme st) (Some (append_desc l trimmed)))
    | None =>
        if truthy_opt (currentTheme st)
        then inr (mk (themes st) (currentTheme st) (Some (mkL trimmed [])))
        else inr st
    end.

(** Tier 1, lines 354-369: one layout per blank-line separated section. *)
Definition section_layout (section : jstr) : option layout :=
  let sectionLines := filter truthy (map trim (split [NL] section)) in
  match sectionLines with
  | [] => None
  | first :: rest =>
      let d := join (js " ") rest in
      Some (mkL (strip_prefix item_prefixes first)
                (if truthy d then d else js "Layout description"))
  end.

Definition fallback_layouts (content : jstr) : list layout :=
  flat_map (fun s => match section_layout s with Some l => [l] | None => [] end)
           (split [NL; NL] content).

(** Lines 371-379: buckets of three, the third takes the rest. *)
Definition bucket (themes : JsObj.t (list layout)) (layoutsList : list layout)
  : JsObj.t (list layout) :=
  let t1 := JsObj.set themes (js "Information Architecture") (firstn 3 layoutsList) in
  let t2 := if (3 <? List.length layoutsList)%nat
            then JsObj.set t1 (js "Interaction Patterns") (firstn 3 (skipn 3 layoutsList))
            else t1 in
  if (6 <? List.length layoutsList)%nat
  then JsObj.set t2 (js "Content Strategy") (skipn 6 layoutsList) else t2.

Definition placeholder : list layout :=
  [mkL (js "Layout 1") (js "Description 1");
   mkL (js "Layout 2") (js "Description 2");
   mkL (js "Layout 3") (js "Description 3")].

(** The primary pass with the final flush, lines 267-350. *)
Definition primary (content : jstr) : res (JsObj.t (list layout)) :=
  let* st := fold_res step (split [NL] content) init in
  let* (_, th) := flush st in
  inr th.

Definition parseLayoutThemes (content : jstr) : res (JsObj.t (list layout)) :=
  let* themes1 := primary content in
  let themes2 :=
    if Nat.eqb (JsObj.keys_length themes1) 0 then
      let layoutsList := fallback_layouts content in
      if (0 <? List.length layoutsList)%nat then bucket themes1 layoutsList else themes1
    else themes1 in
  let themes3 :=
    if Nat.eqb (JsObj.keys_length themes2) 0
    then JsObj.set themes2 (js "Layout Directions") placeholder
    else themes2 in
  inr themes3.

End Layout.

(** ** User-segment grammar: [parseUserSegments] *)

Module Segments.

Record persona := mkP { persona_name : jstr; persona_description : jstr }.

Record segment := mkS {
  segment_name : jstr;
  persona_of : option persona;
  scenarios : list jstr }.

(** The loop of lines 646-653: [(personaStart, scenariosStart)]. *)
Fixpoint find_starts (j : nat) (lines : list jstr) (personaStart : option nat)
  : option nat * option nat :=
  match lines with
  | [] => (personaStart, None)
  | l :: ls =>
      if startsWith (toLowerCase l) (js "persona") then find_starts (S j) ls (Some j)
      else if startsWith (toLowerCase l) (js "key scenarios") then (personaStart, Some j)
      else find_starts (S j) ls personaStart
  end.

(** The loop of lines 659-665. *)
Fixpoint persona_lines (lines : list jstr) : list jstr :=
  match lines with
  | [] => []
  | l :: ls =>
      if truthy l && negb (startsWith (toLowerCase l) (js "key"))
      then l :: persona_lines ls else []
  end.

(** The loop of lines 678-690. *)
Fixpoint scenario_lines (lines : list jstr) : list jstr :=
  match lines with
  | [] => []
  | l :: ls =>
      if startsWith (toLowerCase l) (js "user segment") then []
      else
        let rest := scenario_lines ls in
        match find (fun p => startsWith l p) item_prefixes with
        | Some p => trim (skipn (List.length p) l) :: rest
        | None => rest
        end
  end.

(** The body of the [for (let i = 1; ...)] loop, for one chunk. *)
Definition segment_of (part : jstr) : option segment :=
  let lines := filter truthy (map trim (split [NL] part)) in
  match lines with
  | [] => None
  | l0 :: _ =>
      let segmentName :=
        if includes l0 [COLON] then trim (nth_str 1 (split2 [COLON] l0)) else l0 in
      let '(personaStart, scenariosStart) := find_starts 0 lines None in
      let persona :=
        match personaStart with
        | None => None
        | Some ps =>
            let endIdx := match scenariosStart with
                          | Some ss => ss | None => List.length lines end in
            let pl := persona_lines (firstn (endIdx - S ps) (skipn (S ps) lines)) in
            match pl with
            | [] => None
            | _ =>
                let personaText := join (js " ") pl in
                let personaName :=
                  if includes personaText [COLON] then trim (before_colon personaText)
                  else trim (nth_str 0 (split (js ".") personaText)) in
                Some (mkP personaName personaText)
            end
        end in
      let scen := match scenariosStart with
                  | None => []
                  | Some ss => scenario_lines (skipn (S ss) lines)
                  end in
      match persona, scen with
      | None, [] => None
      | _, _ => Some (mkS segmentName persona scen)
      end
  end.

Definition fallback : segment :=
  mkS (js "Primary Users") (Some (mkP (js "User") (js "Primary user persona")))
      [js "Scenario 1"; js "Scenario 2"].

Definition parseUserSegments (content : jstr) : list segment :=
  let parts := split (js "User Segment") content in
  let segments :=
    flat_map (fun part => match segment_of part with Some s => [s] | None => [] end)
             (tl parts) in
  match segments with
  | [] => [fallback]
  | _ => segments
  end.

End Segments.

(** ** Concept explanations: [parseSketchConcepts] *)

Module Concepts.

Record state := mk { explanations : list jstr; currentExplanation : option jstr }.

Definition init : state := mk [] None.

Definition concept_prefixes : list jstr := map js ["1."; "2."; "3."]%string ++ [[BULLET]; js "-"].

Definition push_if_truthy (st : state) : list jstr :=
  match currentExplanation st with
  | Some c => if truthy c then explanations st ++ [c] else explanations st
  | None => explanations st
  end.

Fixpoint first_marker (prefixes : list jstr) (trimmed : jstr) : option jstr :=
  match prefixes with
  | [] => None
  | p :: ps =>
      if startsWith trimmed p then Some (trim (skipn (List.length p) trimmed))
      else first_marker ps trimmed
  end.

Definition step (st : state) (line : jstr) : state :=
  let trimmed := trim line in
  if negb (truthy trimmed) then
    if truthy_opt (currentExplanation st) then mk (push_if_truthy st) None else st
  else if first_is_digit trimmed || starts_with_bullet trimmed then
    let ex := push_if_truthy st in
    (* [currentExplanation] is not reset after the push above *)
    let ce := match first_marker concept_prefixes trimmed with
              | Some c => Some c
              | None => currentExplanation st
              end in
    mk ex (if truthy_opt ce then ce else Some trimmed)
  else
    match currentExplanation st with
    | Some c => if truthy c then mk (explanations st) (Some (c ++ js " " ++ trimmed))
                else mk (explanations st) (Some trimmed)
    | None => mk (explanations st) (Some trimmed)
    end.

Definition GENERIC : jstr :=
  js "This sketch explores a design approach for addressing the challenge.".

Definition parseSketchConcepts (content : jstr) : list jstr :=
  let st := fold_left step (split [NL] content) init in
  let explanations := push_if_truthy st in
  let cleaned := filter truthy (map trim (firstn 3 explanations)) in
  firstn 3 (cleaned ++ repeat GENERIC (3 - List.length cleaned)).

End Concepts.

(** ** Prompt extraction of [generateSketchPrompts] (lines 211-233) *)

Module Sketch.

Definition sketch_prefixes : list jstr := Concepts.concept_prefixes.

Definition keep (line : jstr) : bool :=
  let trimmed := trim line in
  truthy trimmed && (first_is_digit trimmed || starts_with_bullet trimmed).

Definition clean (p : jstr) : jstr := strip_prefix sketch_prefixes (trim p).

Definition parsed_prompts (content : jstr) : list jstr :=
  filter truthy (map clean (filter keep (split [NL] content))).

Definition placeholder : list jstr :=
  map js ["sketch prompt 1"; "sketch prompt 2"; "sketch prompt 3"]%string.

Definition prompts_of_content (content : jstr) : list jstr :=
  let prompts := parsed_prompts content in
  if (3 <=? List.length prompts)%nat then firstn 3 prompts else placeholder.

End Sketch.

(** ** [fillTemplate] (lines 42-44) *)

(** [template.replace(/\{\{challenge\}\}/g, challenge)]: every match of
    the placeholder, left to right, is replaced by the challenge read as a
    replacement pattern ([GetSubstitution]).  The pattern has no capture
    group, so only [$$], [$&], [$`] and [$'] are special; [$1], [$<] and a
    lone [$] stand for themselves. *)
Module Template.

Definition PLACEHOLDER : jstr := js "{{challenge}}".

Definition DOLLAR : Z := 36.

(** [GetSubstitution(matched, str, position, [], undefined, replacement)]:
    [before] is [str] up to the match, [after] is [str] after it. *)
Fixpoint get_substitution (matched before after replacement : jstr) : jstr :=
  match replacement with
  | [] => []
  | c :: r =>
      match r with
      | d :: r' =>
          if Z.eqb c DOLLAR then
            if Z.eqb d 36 then 36 :: get_substitution matched before after r'
            else if Z.eqb d 38 then matched ++ get_substitution matched before after r'
            else if Z.eqb d 96 then before ++ get_substitution matched before after r'
            else if Z.eqb d 39 then after ++ get_substitution matched before after r'
            else c :: get_substitution matched before after r
          else c :: get_substitution matched before after r
      | [] => [c]
      end
  end.

(** The global replace loop; [consumed] is the part of the template
    already scanned. *)
Fixpoint replace_go (fuel : nat) (replaceValue consumed s : jstr) : jstr :=
  match fuel with
  | O => s
  | S fuel' =>
      match s with
      | [] => []
      | c :: s' =>
          if startsWith s PLACEHOLDER then
            let after := skipn (List.length PLACEHOLDER) s in
            get_substitution PLACEHOLDER consumed after replaceValue ++
            replace_go fuel' replaceValue (consumed ++ PLACEHOLDER) after
          else c :: replace_go fuel' replaceValue (consumed ++ [c]) s'
      end
  end.

Definition fillTemplate (template challenge : jstr) : jstr :=
  replace_go (S (List.length template)) challenge [] template.

End Template.

(** ** Upstream services and the orchestrator *)

Module Gen.

(** A settled promise. *)
Inductive Settled (A : Type) :=
| Fulfilled (a : A)
| Rejected (reason : Exn).
Arguments Fulfilled {A} a.
Arguments Rejected {A} reason.

(** A text-generation request: the template name selecting the call site,
    the template text and the challenge (the user message is
    [fillTemplate(template, challenge)]), or the concept-explanation
    request built from the challenge and the visual prompts. *)
Inductive ChatRequest :=
| TextReq (name : jstr) (template : jstr) (challenge : jstr)
| ConceptReq (challenge : jstr) (sketchPrompts : list jstr).

Record ImageDatum := mkDatum { url : option jstr; revised_prompt : option jstr }.

(** [result.value]: [data] may be absent. *)
Record ImageResponse := mkImgResp { data : option (list ImageDatum) }.

(** The world the module runs in: [process.env.OPENAI_API_KEY], the prompt
    files, and the answers of the two hosted services.  [chat] yields the
    [message.content] of each returned choice ([None] for [null]); [image i p]
    is the outcome of the [i]-th image request, for prompt [p]. *)
Record Env := mkEnv {
  api_key : option jstr;
  prompts_dir : jstr;
  template_file : jstr -> option jstr;
  chat : ChatRequest -> Settled (list (option jstr));
  image : nat -> jstr -> Settled ImageResponse }.

Section WithEnv.

Variable env : Env.

(** [getClient()]: throws when the key is missing or empty; the cached
    client does not change the outcome, since the key never changes. *)
Definition getClient : res unit :=
  match api_key env with
  | Some k => if truthy k then inr tt
              else inl (JsError (js "OPENAI_API_KEY not found in environment. Set it in .env file or environment variables."))
  | None => inl (JsError (js "OPENAI_API_KEY not found in environment. Set it in .env file or environment variables."))
  end.

Definition loadPromptTemplate (templateName : jstr) : res jstr :=
  let templatePath := prompts_dir env ++ js "/" ++ templateName ++ js "_prompt.txt" in
  match template_file env templatePath with
  | Some t => inr t
  | None => inl (JsError (js "Prompt template not found: " ++ templatePath))
  end.

(** [response.choices[0].message.content || ''] *)
Definition first_content (choices : list (option jstr)) : res jstr :=
  match choices with
  | [] => inl (TypeError (js "Cannot read properties of undefined (reading 'message')"))
  | Some c :: _ => inr c
  | None :: _ => inr []
  end.

(** The shape shared by the five stage-1 generators: client and template
    outside the [try], the request and the parse inside it, and the
    [catch] that rethrows with [describe error] prepended by [label]. *)
Definition generate_text {A} (name label : jstr) (describe : Exn -> jstr)
    (parse : jstr -> res A) (challenge : jstr) : res A :=
  let* _ := getClient in
  let* template := loadPromptTemplate name in
  let attempt :=
    match chat env (TextReq name template challenge) with
    | Rejected e => inl e
    | Fulfilled choices => let* content := first_content choices in parse content
    end in
  match attempt with
  | inl e => inl (JsError (label ++ describe e))
  | inr r => inr r
  end.

(** [error.error?.message || error.message || 'Unknown error'] *)
Definition hmw_error_message (e : Exn) : jstr :=
  match e with
  | ApiError (Some m) _ => if truthy m then m
                           else if truthy (exn_message e) then exn_message e
                           else js "Unknown error"
  | _ => if truthy (exn_message e) then exn_message e else js "Unknown error"
  end.

Definition generateHMWStatements :=
  generate_text (js "hmw") (js "Failed to generate HMW statements: ")
                hmw_error_message HMW.parseHMWThemes.

Definition generateFeatureIdeas :=
  generate_text (js "features") (js "Failed to generate feature ideas: ")
                exn_message Feature.parseFeatureThemes.

Definition generateSketchPrompts :=
  generate_text (js "visual") (js "Failed to generate sketch prompts: ")
                exn_message (fun c => inr (Sketch.prompts_of_content c)).

Definition generateLayoutSuggestions :=
  generate_text (js "layout") (js "Failed to generate layout suggestions: ")
                exn_message Layout.parseLayoutThemes.

Definition generateUserContext :=
  generate_text (js "user_context") (js "Failed to generate user context: ")
                exn_message (fun c => inr (Segments.parseUserSegments c)).

(** An element of [images]. [error] is absent ([None]) on fulfilled
    requests. *)
Record ImageSlot := mkSlot {
  slot_url : option jstr;
  slot_revised_prompt : option jstr;
  slot_error : option jstr }.

(** The [results.map] callback of lines 408-419. *)
Definition slot_of (r : Settled ImageResponse) : ImageSlot :=
  match r with
  | Rejected e => mkSlot None None (Some (exn_message e))
  | Fulfilled v =>
      match data v with
      | Some (d :: _) => mkSlot (url d) (revised_prompt d) None
      | _ => mkSlot None None None
      end
  end.

Fixpoint mapi_from {A B} (i : nat) (f : nat -> A -> B) (l : list A) : list B :=
  match l with
  | [] => []
  | a :: l' => f i a :: mapi_from (S i) f l'
  end.

(** [generateImages]: one request per prompt among the first three,
    joined with [Promise.allSettled], which keeps the input order. *)
Definition generateImages (prompts : list jstr) : res (list ImageSlot) :=
  let* _ := getClient in
  let results := mapi_from 0 (fun i p => image env i p) (firstn 3 prompts) in
  inr (map slot_of results).

Definition generateSketchConcepts (challenge : jstr) (sketchPrompts : list jstr)
  : res (list jstr) :=
  let* _ := getClient in
  inr (match chat env (ConceptReq challenge sketchPrompts) with
       | Rejected _ => firstn 3 sketchPrompts
       | Fulfilled choices =>
           match first_content choices with
           | inl _ => firstn 3 sketchPrompts
           | inr content => Concepts.parseSketchConcepts content
           end
       end).

Record GenerationResult := mkResult {
  hmw : JsObj.t (list jstr);
  feature_ideas : JsObj.t (list Feature.feature);
  sketch_prompts : list jstr;
  images : list ImageSlot;
  image_urls : list jstr;
  user_context : list Segments.segment;
  layouts : JsObj.t (list Layout.layout);
  sketch_concepts : list jstr }.

(** [arr.filter(Boolean)] on [url] values. *)
Definition filter_boolean (l : list (option jstr)) : list jstr :=
  flat_map (fun o => match o with Some u => if truthy u then [u] else [] | None => [] end) l.

(** Stages 2 and 3 of [generateAll], after the text join fulfilled. *)
Definition after_text_stage (challenge : jstr) hmwResults featureIdeas sketchPrompts
    layouts userContext : res GenerationResult :=
  let* imgs := generateImages sketchPrompts in
  let* sketchConcepts := generateSketchConcepts challenge sketchPrompts in
  inr (mkResult hmwResults featureIdeas sketchPrompts imgs
                (filter_boolean (map slot_url imgs)) userContext layouts sketchConcepts).

Definition forget {A} (r : res A) : res unit :=
  match r with inl e => inl e | inr _ => inr tt end.

(** The five stage-1 outcomes, in the order of the [Promise.all] array. *)
Definition text_stage (challenge : jstr) : list (res unit) :=
  [forget (generateHMWStatements challenge); forget (generateFeatureIdeas challenge);
   forget (generateSketchPrompts challenge); forget (generateLayoutSuggestions challenge);
   forget (generateUserContext challenge)].

(** [generateAll]: [Promise.all] fulfils when all five fulfil and otherwise
    rejects with the reason of the rejection that settles first, which may
    be any of the rejected ones. *)
Inductive generateAll (challenge : jstr) : res GenerationResult -> Prop :=
| generateAll_fulfilled h f s l u :
    generateHMWStatements challenge = inr h ->
    generateFeatureIdeas challenge = inr f ->
    generateSketchPrompts challenge = inr s ->
    generateLayoutSuggestions challenge = inr l ->
    generateUserContext challenge = inr u ->
    generateAll challenge (after_text_stage challenge h f s l u)
| generateAll_rejected e :
    In (inl e) (text_stage challenge) ->
    generateAll challenge (inl e).

End WithEnv.

End Gen.

(** ** Item invariants of the theme maps *)

(** Every item of every theme of [o] satisfies [Q]. *)
Definition all_items {A} (Q : A -> Prop) (o : JsObj.t (list A)) : Prop :=
  forall k l x, In (k, l) o -> In x l -> Q x.

(** A statement that starts with the phrase, ignoring case. *)
Definition how_might_we_form (s : jstr) : Prop :=
  startsWith (toLowerCase s) (js "how might we") = true.

(** A layout with a non-empty title. *)
Definition titled (x : Layout.layout) : Prop := truthy (Layout.title x) = true.

(** * Sample inputs *)

(** A reply that opens a theme and lists nothing under it. *)
Definition header_only_reply : jstr := js "Theme 1: Safety".

(** Thirteen bulleted reframes and no theme header. *)
Definition thirteen_bullets : jstr :=
  List.concat (repeat (js "- How might we shorten the wait" ++ [NL]) 13).

(** An explicit theme followed by a colon line that is not a theme marker,
    for each theme grammar. *)
Definition reframe_reply_with_colon_line : jstr :=
  js "Theme 1: Safety" ++ [NL] ++ js "Lighting: better lamps at night" ++ [NL] ++
  js "1. How might we improve lighting at stops".

Definition feature_reply_with_colon_line : jstr :=
  js "Theme 1: Safety" ++ [NL] ++ js "Lighting: better lamps at night" ++ [NL] ++
  js "1. Brighter lamps - riders feel safer".

Definition layout_reply_with_colon_line : jstr :=
  js "Theme 1: Safety" ++ [NL] ++ js "Lighting: better lamps at night" ++ [NL] ++
  js "Lamps along the curb".

(** A layout reply without any theme header: two blank-line sections. *)
Definition two_layout_sections : jstr :=
  js "Card grid" ++ [NL] ++ js "Shows listings in tiles" ++ [NL; NL] ++
  js "Map view" ++ [NL] ++ js "Pins on a map".

Module Samples.
Import Gen.

Definition rate_limited : Exn := ApiError None (js "429 Rate limit reached").

Definition image_ok (u : String.string) : Settled ImageResponse :=
  Fulfilled (mkImgResp (Some [mkDatum (Some (js u)) None])).

(** Replies of the text service per template name. *)
Definition reply_for (name : jstr) : jstr :=
  if JsObj.jstr_eqb name (js "visual")
  then js "1. A bus shelter with a live map" ++ [NL] ++
       js "2. A heated bench" ++ [NL] ++ js "3. Solar lighting under the roof"
  else [].

(** A world where the text call of [failing_site] (if any), the concept
    call (if [concept_fails]) and the image request number [failing_image]
    (if any) are rejected, and everything else succeeds. *)
Definition env (failing_site : option jstr) (concept_fails : bool)
    (failing_image : option nat) : Env :=
  mkEnv (Some (js "sk-test")) (js "/srv/prompts")
    (fun _ => Some (js "Challenge: {{challenge}}"))
    (fun req =>
       match req with
       | TextReq name _ _ =>
           match failing_site with
           | Some f => if JsObj.jstr_eqb f name then Rejected rate_limited
                       else Fulfilled [Some (reply_for name)]
           | None => Fulfilled [Some (reply_for name)]
           end
       | ConceptReq _ _ =>
           if concept_fails then Rejected rate_limited
           else Fulfilled [Some (js "1. Live arrival information")]
       end)
    (fun i _ =>
       match failing_image with
       | Some j => if Nat.eqb i j then Rejected (ApiError None (js "content policy"))
                   else image_ok "https://img.example/1.png"
       | None => image_ok "https://img.example/1.png"
       end).

Definition challenge : jstr := js "Improve the bus stop experience".

End Samples.

(** * Properties *)

(** ** Helper lemmas *)

Lemma JsObj_set_not_nil {V} (o : JsObj.t V) k v : JsObj.set o k v <> [].
Proof. destruct o as [|[k' v'] o']; simpl; [|destruct (JsObj.jstr_eqb k k')]; discriminate. Qed.

Lemma length_mapi_from {A B} (f : nat -> A -> B) l : forall i,
  List.length (Gen.mapi_from i f l) = List.length l.
Proof. induction l as [|a l IH]; intros i; simpl; [reflexivity | now rewrite IH]. Qed.

Lemma nth_error_mapi_from {A B} (f : nat -> A -> B) l : forall i j a,
  nth_error l j = Some a -> nth_error (Gen.mapi_from i f l) j = Some (f (i + j)%nat a).
Proof.
  induction l as [|b l IH]; intros i j a H; destruct j; simpl in *; try discriminate.
  - inversion H; subst. now rewrite Nat.add_0_r.
  - rewrite (IH (S i) j a H). now rewrite Nat.add_succ_r.
Qed.

Lemma generate_text_client {A} env name label describe (parse : jstr -> res A) ch r :
  Gen.generate_text env name label describe parse ch = inr r -> Gen.getClient env = inr tt.
Proof. unfold Gen.generate_text. destruct (Gen.getClient env) as [e|[]]; [discriminate | auto]. Qed.

Lemma generateSketchPrompts_shape env ch s :
  Gen.generateSketchPrompts env ch = inr s -> exists c, s = Sketch.prompts_of_content c.
Proof.
  unfold Gen.generateSketchPrompts, Gen.generate_text.
  destruct (Gen.getClient env) as [e|[]]; simpl; [discriminate|].
  destruct (Gen.loadPromptTemplate env _) as [e|t]; simpl; [discriminate|].
  destruct (Gen.chat env _) as [choices|e]; simpl; [|discriminate].
  destruct (Gen.first_content choices) as [e|c]; simpl; [discriminate|].
  intros H; inversion H; eauto.
Qed.

Lemma prompts_of_content_length c : List.length (Sketch.prompts_of_content c) = 3%nat.
Proof.
  unfold Sketch.prompts_of_content.
  destruct (Nat.leb_spec 3 (List.length (Sketch.parsed_prompts c))).
  - rewrite length_firstn. lia.
  - reflexivity.
Qed.

Lemma parseSketchConcepts_length c : List.length (Concepts.parseSketchConcepts c) = 3%nat.
Proof.
  unfold Concepts.parseSketchConcepts.
  rewrite length_firstn, length_app, repeat_length. lia.
Qed.

(** The explanations kept by [parseSketchConcepts] are the first three
    parsed ones, trimmed and without the empty ones, padded with the
    generic sentence. *)
Lemma parseSketchConcepts_padded c :
  let explanations :=
    Concepts.push_if_truthy (fold_left Concepts.step (split [NL] c) Concepts.init) in
  let cleaned := filter truthy (map trim (firstn 3 explanations)) in
  (List.length cleaned <= 3)%nat /\
  Concepts.parseSketchConcepts c = cleaned ++ repeat Concepts.GENERIC (3 - List.length cleaned).
Proof.
  cbv zeta. unfold Concepts.parseSketchConcepts. cbv zeta.
  set (cl := filter truthy _).
  assert (Hl : (List.length cl <= 3)%nat).
  { unfold cl. etransitivity; [apply filter_length_le|].
    rewrite length_map, length_firstn. lia. }
  split; [exact Hl|].
  apply firstn_all2. rewrite length_app, repeat_length. lia.
Qed.

Lemma generateImages_result env prompts :
  Gen.getClient env = inr tt ->
  Gen.generateImages env prompts
  = inr (map Gen.slot_of (Gen.mapi_from 0 (fun i p => Gen.image env i p) (firstn 3 prompts))).
Proof. intros Hc. unfold Gen.generateImages. rewrite Hc. reflexivity. Qed.

Lemma filter_boolean_le l : (List.length (Gen.filter_boolean l) <= List.length l)%nat.
Proof.
  induction l as [|[u|] l IH]; simpl; [lia| |lia].
  destruct (truthy u); simpl; lia.
Qed.

Lemma filter_boolean_lt l :
  In None l -> (List.length (Gen.filter_boolean l) < List.length l)%nat.
Proof.
  induction l as [|[u|] l IH]; simpl; intros H; [contradiction| |].
  - destruct H as [H|H]; [discriminate|]. specialize (IH H).
    destruct (truthy u); simpl; lia.
  - pose proof (filter_boolean_le l). lia.
Qed.

(** Builds the [generateAll] derivation of a world whose five text calls
    fulfil, by evaluating each of them. *)
Ltac text_call_fulfils call E :=
  case_eq call; [let e := fresh in intros e E; vm_compute in E; discriminate
                | let v := fresh in intros v E].


(** *** [trim] and [toLowerCase] *)

Lemma trim_start_split s :
  exists sp, s = sp ++ trim_start s /\ Forall (fun c => is_js_space c = true) sp.
Proof.
  induction s as [|c s IH]; simpl.
  - exists []. auto.
  - destruct (is_js_space c) eqn:Hc.
    + destruct IH as (sp & Hs & Hsp). exists (c :: sp). simpl. rewrite <- Hs. auto.
    + exists []. auto.
Qed.

Lemma trim_start_head s :
  trim_start s = [] \/ exists c r, trim_start s = c :: r /\ is_js_space c = false.
Proof.
  induction s as [|c s IH]; simpl; [auto|].
  destruct (is_js_space c) eqn:Hc; [exact IH | right; eauto].
Qed.

Lemma trim_start_fixed s :
  (s = [] \/ exists c r, s = c :: r /\ is_js_space c = false) -> trim_start s = s.
Proof. intros [->|(c & r & -> & Hc)]; simpl; [reflexivity | now rewrite Hc]. Qed.

Lemma trim_start_idem s : trim_start (trim_start s) = trim_start s.
Proof. apply trim_start_fixed, trim_start_head. Qed.

Lemma trim_idem s : trim (trim s) = trim s.
Proof.
  unfold trim.
  set (a := trim_start s). set (b := trim_start (rev a)).
  assert (Hb : trim_start (rev b) = rev b).
  { apply trim_start_fixed.
    destruct (trim_start_split (rev a)) as (sp & Hs & _). fold b in Hs.
    assert (Ha : a = rev b ++ rev sp)
      by (rewrite <- rev_app_distr, <- Hs, rev_involutive; reflexivity).
    destruct (rev b) as [|d r] eqn:Er; [auto|right].
    destruct (trim_start_head s) as [Hn|(c & r' & Hc & Hsp)].
    - fold a in Hn. rewrite Hn in Ha. discriminate.
    - fold a in Hc. rewrite Hc in Ha. simpl in Ha. inversion Ha; subst. eauto. }
  rewrite Hb, rev_involutive. unfold b. rewrite trim_start_idem. reflexivity.
Qed.












Lemma some_eq {A} (x y : A) : Some x = Some y -> x = y.
Proof. congruence. Qed.


Lemma lower_prefixed y :
  toLowerCase (HOW_MIGHT_WE ++ [32] ++ y) = js "how might we " ++ toLowerCase y.
Proof. reflexivity. Qed.

Lemma starts_how_might_we y : startsWith (js "how might we " ++ y) (js "how might we") = true.
Proof. reflexivity. Qed.

(** ** C1: the never-empty guarantee *)

(** A theme named after an inherited [Object.prototype] property makes the
    reframe parser throw on [.push]. *)
Example parseHMWThemes_throws_on_inherited_name :
  HMW.parseHMWThemes (js "Theme: toString" ++ [NL] ++ js "1. How might we make stops safer")
  = inl (TypeError (js "themes[currentTheme].push is not a function")).
Proof. vm_compute. reflexivity. Qed.

(** C1 (counterexample): the reply "Theme 1: Safety" makes the reframe
    parser return one theme with no item, so not every theme holds an
    item. *)
Lemma C1_theme_without_items :
  HMW.parseHMWThemes header_only_reply = inr [(js "Safety", [])] /\
  ~ (forall content, exists t, HMW.parseHMWThemes content = inr t /\
       t <> [] /\ Forall (fun kv => snd kv <> []) t).
Proof.
  assert (E : HMW.parseHMWThemes header_only_reply = inr [(js "Safety", [])])
    by (vm_compute; reflexivity).
  split; [exact E|].
  intros H. destruct (H header_only_reply) as (t & Ht & _ & Hall).
  rewrite E in Ht. inversion Ht; subst.
  inversion Hall as [|? ? Hk]; subst. apply Hk. reflexivity.
Qed.

(** C1 (amended): whenever one of the three theme parsers returns, its
    result has at least one theme (a theme may have no items); the
    user-segment parser always returns at least one segment. *)
Theorem C1_at_least_one_theme content :
  (forall t, HMW.parseHMWThemes content = inr t -> t <> []) /\
  (forall t, Feature.parseFeatureThemes content = inr t -> t <> []) /\
  (forall t, Layout.parseLayoutThemes content = inr t -> t <> []) /\
  Segments.parseUserSegments content <> [].
Proof.
  repeat split.
  - intros t. unfold HMW.parseHMWThemes.
    destruct (HMW.primary content) as [e|th]; simpl; [discriminate|].
    intros H; inversion H; subst; clear H.
    match goal with |- (if ?b then _ else ?x) <> [] => destruct b eqn:E end.
    + apply JsObj_set_not_nil.
    + intros Hn. rewrite Hn in E. discriminate.
  - intros t. unfold Feature.parseFeatureThemes.
    destruct (Feature.primary content) as [e|th]; simpl; [discriminate|].
    destruct (Nat.eqb (JsObj.keys_length th) 0) eqn:E;
      intros H; inversion H; subst; clear H.
    + apply JsObj_set_not_nil.
    + intros Hn. rewrite Hn in E. discriminate.
  - intros t. unfold Layout.parseLayoutThemes.
    destruct (Layout.primary content) as [e|th]; simpl; [discriminate|].
    intros H; inversion H; subst; clear H.
    match goal with |- (if ?b then _ else ?x) <> [] => destruct b eqn:E end.
    + apply JsObj_set_not_nil.
    + intros Hn. rewrite Hn in E. discriminate.
  - unfold Segments.parseUserSegments.
    destruct (flat_map _ _); discriminate.
Qed.

(** ** C10: [generateSketchPrompts] yields three prompts *)

(** C10: the prompt extraction always yields exactly three prompts: the
    first three parsed ones when there are at least three, and otherwise
    the fixed placeholders, the parsed ones being discarded. *)
Theorem C10_sketch_prompts_exactly_three content :
  let parsed := Sketch.parsed_prompts content in
  List.length (Sketch.prompts_of_content content) = 3%nat /\
  ((3 <= List.length parsed)%nat -> Sketch.prompts_of_content content = firstn 3 parsed) /\
  ((List.length parsed < 3)%nat ->
   Sketch.prompts_of_content content =
   [js "sketch prompt 1"; js "sketch prompt 2"; js "sketch prompt 3"]).
Proof.
  intros parsed. unfold Sketch.prompts_of_content. fold parsed.
  destruct (Nat.leb_spec 3 (List.length parsed)) as [H|H].
  - split; [rewrite length_firstn; lia|].
    split; intros; [reflexivity | lia].
  - split; [reflexivity|].
    split; intros; [lia | reflexivity].
Qed.

(** ** C2: positional image slots *)

(** C2: for up to three prompts, [generateImages] returns one slot per
    prompt, slot [i] depending only on request [i]; a rejected request
    gives [{url: null, error: message}] in its own slot; with three prompts
    whose second request fails, slots 0 and 2 carry URLs and slot 1 the
    error. *)
Theorem C2_image_slots_positional env prompts :
  Gen.getClient env = inr tt -> (List.length prompts <= 3)%nat ->
  exists slots, Gen.generateImages env prompts = inr slots /\
    List.length slots = List.length prompts /\
    (forall i p, nth_error prompts i = Some p ->
       nth_error slots i = Some (Gen.slot_of (Gen.image env i p))) /\
    (forall i p e, nth_error prompts i = Some p -> Gen.image env i p = Gen.Rejected e ->
       nth_error slots i = Some (Gen.mkSlot None None (Some (exn_message e)))) /\
    (forall p0 p1 p2 d0 r0 u0 e d2 r2 u2,
       prompts = [p0; p1; p2] ->
       Gen.image env 0 p0 = Gen.Fulfilled (Gen.mkImgResp (Some (d0 :: r0))) ->
       Gen.url d0 = Some u0 ->
       Gen.image env 1 p1 = Gen.Rejected e ->
       Gen.image env 2 p2 = Gen.Fulfilled (Gen.mkImgResp (Some (d2 :: r2))) ->
       Gen.url d2 = Some u2 ->
       slots = [Gen.mkSlot (Some u0) (Gen.revised_prompt d0) None;
                Gen.mkSlot None None (Some (exn_message e));
                Gen.mkSlot (Some u2) (Gen.revised_prompt d2) None]).
Proof.
  intros Hc Hlen. unfold Gen.generateImages. rewrite Hc, (firstn_all2 prompts Hlen).
  simpl bind.
  eexists; split; [reflexivity|].
  assert (Hnth : forall i p, nth_error prompts i = Some p ->
            nth_error (map Gen.slot_of (Gen.mapi_from 0 (fun i p => Gen.image env i p) prompts)) i
            = Some (Gen.slot_of (Gen.image env i p))).
  { intros i p Hp. rewrite nth_error_map.
    rewrite (nth_error_mapi_from _ prompts 0 i p Hp). reflexivity. }
  split; [rewrite length_map, length_mapi_from; reflexivity|].
  split; [exact Hnth|].
  split.
  - intros i p e Hp He. rewrite (Hnth i p Hp), He. reflexivity.
  - intros p0 p1 p2 d0 r0 u0 e d2 r2 u2 -> H0 U0 H1 H2 U2. simpl.
    rewrite H0, H1, H2. simpl. rewrite U0, U2. reflexivity.
Qed.

(** Witness for C2: three prompts, the second image request rejected. *)
Lemma C2_witness :
  let env := Samples.env None false (Some 1%nat) in
  let prompts := [js "a"; js "b"; js "c"] in
  Gen.getClient env = inr tt /\ (List.length prompts <= 3)%nat /\
  exists slots, Gen.generateImages env prompts = inr slots /\
    List.length slots = List.length prompts /\
    (forall i p, nth_error prompts i = Some p ->
       nth_error slots i = Some (Gen.slot_of (Gen.image env i p))) /\
    (forall i p e, nth_error prompts i = Some p -> Gen.image env i p = Gen.Rejected e ->
       nth_error slots i = Some (Gen.mkSlot None None (Some (exn_message e)))) /\
    (forall p0 p1 p2 d0 r0 u0 e d2 r2 u2,
       prompts = [p0; p1; p2] ->
       Gen.image env 0 p0 = Gen.Fulfilled (Gen.mkImgResp (Some (d0 :: r0))) ->
       Gen.url d0 = Some u0 ->
       Gen.image env 1 p1 = Gen.Rejected e ->
       Gen.image env 2 p2 = Gen.Fulfilled (Gen.mkImgResp (Some (d2 :: r2))) ->
       Gen.url d2 = Some u2 ->
       slots = [Gen.mkSlot (Some u0) (Gen.revised_prompt d0) None;
                Gen.mkSlot None None (Some (exn_message e));
                Gen.mkSlot (Some u2) (Gen.revised_prompt d2) None]).
Proof.
  intros env prompts.
  assert (Hc : Gen.getClient env = inr tt) by reflexivity.
  assert (Hl : (List.length prompts <= 3)%nat) by (simpl; lia).
  split; [exact Hc|]. split; [exact Hl|].
  exact (C2_image_slots_positional env prompts Hc Hl).
Defined.

(** ** C3: the text stage is fail-fast *)

(** C3: when one of the five stage-1 calls rejects, every outcome of
    [generateAll] is a rejection carrying the reason of a rejected stage-1
    call, and that very reason when it is the only one; no partial result
    is returned. *)
Theorem C3_text_stage_fail_fast env ch e r :
  In (inl e) (Gen.text_stage env ch) -> Gen.generateAll env ch r ->
  exists e', r = inl e' /\ In (inl e') (Gen.text_stage env ch) /\
    ((forall e'', In (inl e'') (Gen.text_stage env ch) -> e'' = e) -> e' = e).
Proof.
  intros Hin Hr. destruct Hr as [h f s l u H1 H2 H3 H4 H5 | e0 Hin0].
  - exfalso. unfold Gen.text_stage in Hin.
    rewrite H1, H2, H3, H4, H5 in Hin. simpl in Hin.
    repeat (destruct Hin as [Hin|Hin]; [discriminate|]). exact Hin.
  - exists e0. split; [reflexivity|]. split; [exact Hin0|].
    intros Huniq. exact (Huniq e0 Hin0).
Qed.

(** Witness for C3: the user-context call is rate limited. *)
Lemma C3_witness :
  let env := Samples.env (Some (js "user_context")) false None in
  let e := JsError (js "Failed to generate user context: 429 Rate limit reached") in
  In (inl e) (Gen.text_stage env Samples.challenge) /\
  Gen.generateAll env Samples.challenge (inl e) /\
  exists e', @inl Exn Gen.GenerationResult e = inl e' /\
    In (inl e') (Gen.text_stage env Samples.challenge) /\
    ((forall e'', In (inl e'') (Gen.text_stage env Samples.challenge) -> e'' = e) -> e' = e).
Proof.
  intros env e.
  assert (Hin : In (inl e) (Gen.text_stage env Samples.challenge)).
  { vm_compute. right; right; right; right; left; reflexivity. }
  pose proof (Gen.generateAll_rejected env Samples.challenge e Hin) as Hr.
  split; [exact Hin|]. split; [exact Hr|].
  exact (C3_text_stage_fail_fast env Samples.challenge e (inl e) Hin Hr).
Defined.

(** ** C8: a failing concept call is absorbed *)

(** C8: the concept-explanation call never makes [generateAll] fail:
    every failure of [generateAll] is the failure of a stage-1 text call;
    and when the one concept call made, on the challenge and the visual
    prompts of the result, is rejected, the explanations of the result are
    the first three of those prompts. *)
Theorem C8_concept_failure_absorbed env ch r :
  Gen.generateAll env ch r ->
  (forall e, r = inl e -> In (inl e) (Gen.text_stage env ch)) /\
  (forall g e0, r = inr g ->
     Gen.chat env (Gen.ConceptReq ch (Gen.sketch_prompts g)) = Gen.Rejected e0 ->
     Gen.sketch_concepts g = firstn 3 (Gen.sketch_prompts g)).
Proof.
  intros Hr. destruct Hr as [h f s l u H1 H2 H3 H4 H5 | e1 Hin].
  - pose proof (generate_text_client _ _ _ _ _ _ _ H1) as Hc.
    unfold Gen.after_text_stage.
    rewrite (generateImages_result env s Hc). cbn [bind].
    unfold Gen.generateSketchConcepts. rewrite Hc. cbn [bind].
    split; [intros ? H; discriminate H|].
    intros g e0 H Hchat. injection H as <-. cbn [Gen.sketch_prompts Gen.sketch_concepts] in *.
    rewrite Hchat. reflexivity.
  - split; [intros ? H; injection H as <-; exact Hin | intros ? ? H; discriminate H].
Qed.

(** Witness for C8: every call succeeds except the concept call, which is
    rejected on the prompts of the result. *)
Lemma C8_witness :
  let env := Samples.env None true None in
  exists g, Gen.generateAll env Samples.challenge (inr g) /\
  Gen.chat env (Gen.ConceptReq Samples.challenge (Gen.sketch_prompts g)) =
    Gen.Rejected Samples.rate_limited /\
  (forall e, @inr Exn Gen.GenerationResult g = inl e ->
     In (inl e) (Gen.text_stage env Samples.challenge)) /\
  (forall g' e0, @inr Exn Gen.GenerationResult g = inr g' ->
     Gen.chat env (Gen.ConceptReq Samples.challenge (Gen.sketch_prompts g')) = Gen.Rejected e0 ->
     Gen.sketch_concepts g' = firstn 3 (Gen.sketch_prompts g')).
Proof.
  intros env.
  text_call_fulfils (Gen.generateHMWStatements env Samples.challenge) E1.
  text_call_fulfils (Gen.generateFeatureIdeas env Samples.challenge) E2.
  text_call_fulfils (Gen.generateSketchPrompts env Samples.challenge) E3.
  text_call_fulfils (Gen.generateLayoutSuggestions env Samples.challenge) E4.
  text_call_fulfils (Gen.generateUserContext env Samples.challenge) E5.
  pose proof (Gen.generateAll_fulfilled env Samples.challenge _ _ _ _ _ E1 E2 E3 E4 E5) as G.
  match type of G with
  | Gen.generateAll _ _ ?r =>
      let R := fresh "R" in
      case_eq r; [intros ? R; vm_compute in R; discriminate | intros g R]
  end.
  rewrite R in G. exists g. split; [exact G|].
  split; [reflexivity|].
  exact (C8_concept_failure_absorbed env Samples.challenge (inr g) G).
Defined.

(** ** C9: [image_urls] drops the slots without a URL *)

(** C9: in a result of [generateAll], [image_urls] is the list of truthy
    [url] values of the slots, in slot order; there are three prompts and
    one slot per prompt; a rejected image request leaves a slot with a
    [null] url; and as soon as one slot has no URL, [image_urls] is shorter
    than the prompt list. *)
Theorem C9_image_urls_filtered env ch g :
  Gen.generateAll env ch (inr g) ->
  Gen.image_urls g = Gen.filter_boolean (map Gen.slot_url (Gen.images g)) /\
  List.length (Gen.sketch_prompts g) = 3%nat /\
  List.length (Gen.images g) = List.length (Gen.sketch_prompts g) /\
  (forall i p e, nth_error (Gen.sketch_prompts g) i = Some p ->
     Gen.image env i p = Gen.Rejected e ->
     nth_error (Gen.images g) i = Some (Gen.mkSlot None None (Some (exn_message e)))) /\
  (forall i s, nth_error (Gen.images g) i = Some s -> Gen.slot_url s = None ->
     (List.length (Gen.image_urls g) < List.length (Gen.sketch_prompts g))%nat).
Proof.
  intros Hr. inversion Hr as [h f s l u H1 H2 H3 H4 H5 Heq|]; subst; clear Hr.
  pose proof (generate_text_client _ _ _ _ _ _ _ H1) as Hc.
  destruct (generateSketchPrompts_shape env ch s H3) as [c ->].
  pose proof (prompts_of_content_length c) as Hlen.
  unfold Gen.after_text_stage in Heq.
  rewrite (generateImages_result env _ Hc) in Heq.
  rewrite (firstn_all2 (Sketch.prompts_of_content c)) in Heq by lia.
  cbn [bind] in Heq.
  unfold Gen.generateSketchConcepts in Heq. rewrite Hc in Heq. cbn [bind] in Heq.
  inversion Heq; subst; clear Heq.
  cbn [Gen.image_urls Gen.sketch_prompts Gen.images].
  set (ps := Sketch.prompts_of_content c) in *.
  set (slots := map Gen.slot_of (Gen.mapi_from 0 (fun i p => Gen.image env i p) ps)).
  assert (Hsl : List.length slots = List.length ps)
    by (unfold slots; rewrite length_map, length_mapi_from; reflexivity).
  split; [reflexivity|]. split; [exact Hlen|]. split; [exact Hsl|]. split.
  - intros i p e Hp He. unfold slots. rewrite nth_error_map.
    rewrite (nth_error_mapi_from _ ps 0 i p Hp). simpl. rewrite He. reflexivity.
  - intros i sl Hi Hu. rewrite <- Hsl, <- (length_map Gen.slot_url slots).
    apply filter_boolean_lt. rewrite <- Hu.
    apply in_map. exact (nth_error_In slots i Hi).
Qed.

(** Witness for C9: the second image request is rejected. *)
Lemma C9_witness :
  let env := Samples.env None false (Some 1%nat) in
  exists g, Gen.generateAll env Samples.challenge (inr g) /\
  Gen.image_urls g = Gen.filter_boolean (map Gen.slot_url (Gen.images g)) /\
  List.length (Gen.sketch_prompts g) = 3%nat /\
  List.length (Gen.images g) = List.length (Gen.sketch_prompts g) /\
  (forall i p e, nth_error (Gen.sketch_prompts g) i = Some p ->
     Gen.image env i p = Gen.Rejected e ->
     nth_error (Gen.images g) i = Some (Gen.mkSlot None None (Some (exn_message e)))) /\
  (forall i s, nth_error (Gen.images g) i = Some s -> Gen.slot_url s = None ->
     (List.length (Gen.image_urls g) < List.length (Gen.sketch_prompts g))%nat).
Proof.
  intros env.
  text_call_fulfils (Gen.generateHMWStatements env Samples.challenge) E1.
  text_call_fulfils (Gen.generateFeatureIdeas env Samples.challenge) E2.
  text_call_fulfils (Gen.generateSketchPrompts env Samples.challenge) E3.
  text_call_fulfils (Gen.generateLayoutSuggestions env Samples.challenge) E4.
  text_call_fulfils (Gen.generateUserContext env Samples.challenge) E5.
  pose proof (Gen.generateAll_fulfilled env Samples.challenge _ _ _ _ _ E1 E2 E3 E4 E5) as G.
  match type of G with
  | Gen.generateAll _ _ ?r =>
      let R := fresh "R" in
      case_eq r; [intros ? R; vm_compute in R; discriminate | intros g R]
  end.
  rewrite R in G. exists g. split; [exact G|].
  exact (C9_image_urls_filtered env Samples.challenge g G).
Defined.

(** ** C7: the number of concept explanations *)

(** C7 (counterexample): when the concept call is rejected and no prompt
    is supplied, the deriver returns no explanation at all. *)
Lemma C7_no_prompts_no_explanations :
  Gen.generateSketchConcepts (Samples.env None true None) Samples.challenge [] = inr [] /\
  ~ (forall env ch ps r, Gen.generateSketchConcepts env ch ps = inr r -> List.length r = 3%nat).
Proof.
  assert (E : Gen.generateSketchConcepts (Samples.env None true None) Samples.challenge []
              = inr []) by reflexivity.
  split; [exact E|].
  intros H. specialize (H _ _ _ _ E). discriminate.
Qed.

(** C7 (amended): when the concept call answers with a choice, the
    deriver returns exactly three explanations: the first three parsed
    explanations, trimmed and without the empty ones, padded with the
    generic sentence; when it is rejected or
    answers without a choice, it returns the first three supplied prompts
    (fewer when fewer are supplied); with three prompts, as [generateAll]
    always supplies, it returns three, and so does every result of
    [generateAll]. *)
Theorem C7_concepts_count env ch ps :
  Gen.getClient env = inr tt ->
  exists r, Gen.generateSketchConcepts env ch ps = inr r /\
    ((exists c rest, Gen.chat env (Gen.ConceptReq ch ps) = Gen.Fulfilled (c :: rest)) ->
       List.length r = 3%nat) /\
    (forall c rest, Gen.chat env (Gen.ConceptReq ch ps) = Gen.Fulfilled (c :: rest) ->
       let content := match c with Some x => x | None => [] end in
       let explanations :=
         Concepts.push_if_truthy (fold_left Concepts.step (split [NL] content) Concepts.init) in
       let cleaned := filter truthy (map trim (firstn 3 explanations)) in
       (List.length cleaned <= 3)%nat /\
       r = cleaned ++ repeat Concepts.GENERIC (3 - List.length cleaned)) /\
    ((forall c rest, Gen.chat env (Gen.ConceptReq ch ps) <> Gen.Fulfilled (c :: rest)) ->
       r = firstn 3 ps) /\
    (List.length ps = 3%nat -> List.length r = 3%nat) /\
    (forall g, Gen.generateAll env ch (inr g) -> List.length (Gen.sketch_concepts g) = 3%nat).
Proof.
  intros Hc.
  assert (Hall : forall g, Gen.generateAll env ch (inr g) ->
                 List.length (Gen.sketch_concepts g) = 3%nat).
  { intros g Hr. inversion Hr as [h f s l u H1 H2 H3 H4 H5 Heq|]; subst; clear Hr.
    destruct (generateSketchPrompts_shape env ch s H3) as [c ->].
    pose proof (prompts_of_content_length c) as Hlen.
    unfold Gen.after_text_stage in Heq.
    rewrite (generateImages_result env _ Hc) in Heq. cbn [bind] in Heq.
    unfold Gen.generateSketchConcepts in Heq. rewrite Hc in Heq. cbn [bind] in Heq.
    inversion Heq; subst; clear Heq. cbn [Gen.sketch_concepts].
    destruct (Gen.chat env _) as [[|[x|] rest]|e]; cbn [Gen.first_content];
      first [apply parseSketchConcepts_length | change (List.length (firstn 3 (Sketch.prompts_of_content c)) = 3%nat); rewrite length_firstn; lia]. }
  unfold Gen.generateSketchConcepts. rewrite Hc. cbn [bind].
  eexists. split; [reflexivity|].
  destruct (Gen.chat env (Gen.ConceptReq ch ps)) as [[|[x|] rest]|e]; cbn [Gen.first_content].
  - split; [intros (c & rest & H); discriminate|].
    split; [intros c rest H; discriminate|].
    split; [reflexivity|]. split; [rewrite length_firstn; lia | exact Hall].
  - split; [intros _; apply parseSketchConcepts_length|].
    split; [intros c rest' H; injection H as <- _; exact (parseSketchConcepts_padded x)|].
    split; [intros H; exfalso; exact (H _ _ eq_refl)|].
    split; [intros _; apply parseSketchConcepts_length | exact Hall].
  - split; [intros _; apply parseSketchConcepts_length|].
    split; [intros c rest' H; injection H as <- _; exact (parseSketchConcepts_padded [])|].
    split; [intros H; exfalso; exact (H _ _ eq_refl)|].
    split; [intros _; apply parseSketchConcepts_length | exact Hall].
  - split; [intros (c & rest & H); discriminate|].
    split; [intros c rest H; discriminate|].
    split; [reflexivity|]. split; [rewrite length_firstn; lia | exact Hall].
Qed.

(** Witness for C7: no prompt supplied, the concept call succeeds. *)
Lemma C7_witness :
  let env := Samples.env None false None in
  Gen.getClient env = inr tt /\
  exists r, Gen.generateSketchConcepts env Samples.challenge [] = inr r /\
    ((exists c rest, Gen.chat env (Gen.ConceptReq Samples.challenge []) = Gen.Fulfilled (c :: rest)) ->
       List.length r = 3%nat) /\
    (forall c rest, Gen.chat env (Gen.ConceptReq Samples.challenge []) = Gen.Fulfilled (c :: rest) ->
       let content := match c with Some x => x | None => [] end in
       let explanations :=
         Concepts.push_if_truthy (fold_left Concepts.step (split [NL] content) Concepts.init) in
       let cleaned := filter truthy (map trim (firstn 3 explanations)) in
       (List.length cleaned <= 3)%nat /\
       r = cleaned ++ repeat Concepts.GENERIC (3 - List.length cleaned)) /\
    ((forall c rest, Gen.chat env (Gen.ConceptReq Samples.challenge []) <> Gen.Fulfilled (c :: rest)) ->
       r = firstn 3 []) /\
    (List.length (@nil jstr) = 3%nat -> List.length r = 3%nat) /\
    (forall g, Gen.generateAll env Samples.challenge (inr g) ->
       List.length (Gen.sketch_concepts g) = 3%nat).
Proof.
  intros env.
  assert (Hc : Gen.getClient env = inr tt) by reflexivity.
  split; [exact Hc|].
  exact (C7_concepts_count env Samples.challenge [] Hc).
Defined.

(** ** C4: the "How might we" normalisation *)


(** A kept statement with capitals is rewritten when normalised again. *)
Example HMW_renormalization_lowercases :
  HMW.normalize (js "1. How might we Fix It Today") = Some (js "How might we Fix It Today") /\
  HMW.normalize (js "How might we Fix It Today") = Some (js "How might we fix it today").
Proof. split; vm_compute; reflexivity. Qed.

(** A prefixed statement whose remainder starts with a colon loses that
    colon when normalised again. *)
Example HMW_renormalization_colon :
  HMW.normalize (js "1. : : lorem ipsum dolor") = Some (js "How might we : lorem ipsum dolor") /\
  HMW.normalize (js "How might we : lorem ipsum dolor") = Some (js "How might we lorem ipsum dolor").
Proof. split; vm_compute; reflexivity. Qed.



(** ** C5: the ad-hoc theme header *)

(** C5 (evaluation at the failing input): with the theme "Safety" open, the
    line "Lighting: better lamps at night" opens a new theme in the reframe
    and feature grammars, which carry the following item off to it and
    leave "Safety" empty; the layout grammar, which checks that no theme is
    open, keeps the line as a layout of "Safety". *)
Theorem C5_colon_line_reopens_theme :
  HMW.parseHMWThemes reframe_reply_with_colon_line =
    inr [(js "Safety", []);
         (js "Lighting", [js "How might we improve lighting at stops"])] /\
  Feature.parseFeatureThemes feature_reply_with_colon_line =
    inr [(js "Safety", []);
         (js "Lighting", [Feature.mkF (js "Brighter lamps") (js "riders feel safer")])] /\
  Layout.parseLayoutThemes layout_reply_with_colon_line =
    inr [(js "Safety", [Layout.mkL (js "Lighting: better lamps at night")
                                   (js "Lamps along the curb")])].
Proof. split; [|split]; vm_compute; reflexivity. Qed.

(** ** C6: the tier-1 fallback buckets *)

(** C6 (counterexample): thirteen bulleted reframes and no header give a
    third synthetic theme "Innovation" of five items. *)
Lemma C6_third_bucket_unbounded :
  HMW.primary thirteen_bullets = inr [] /\
  List.length (HMW.fallback_statements thirteen_bullets) = 13%nat /\
  exists t, HMW.parseHMWThemes thirteen_bullets = inr t /\
    exists items, In (js "Innovation", items) t /\ List.length items = 5%nat.
Proof.
  split; [vm_compute; reflexivity|]. split; [vm_compute; reflexivity|].
  eexists. split; [vm_compute; reflexivity|].
  eexists. split; [simpl; right; right; left; reflexivity | reflexivity].
Qed.

(** C6 (amended): when the primary grammar yields no theme and the tier-1
    re-scan yields items, the result is a first theme with the first four
    reframes (three layouts), a second with the next four (three) if there
    are more, and a third with all the remaining ones if there are more
    still, named "Reframing", "Exploration", "Innovation" (respectively
    "Information Architecture", "Interaction Patterns", "Content
    Strategy"). *)
Theorem C6_tier1_buckets content :
  (HMW.primary content = inr [] -> HMW.fallback_statements content <> [] ->
   let s := HMW.fallback_statements content in
   HMW.parseHMWThemes content =
   inr ([(js "Reframing", firstn 4 s)] ++
        (if (4 <? List.length s)%nat then [(js "Exploration", firstn 4 (skipn 4 s))] else []) ++
        (if (8 <? List.length s)%nat then [(js "Innovation", skipn 8 s)] else []))) /\
  (Layout.primary content = inr [] -> Layout.fallback_layouts content <> [] ->
   let l := Layout.fallback_layouts content in
   Layout.parseLayoutThemes content =
   inr ([(js "Information Architecture", firstn 3 l)] ++
        (if (3 <? List.length l)%nat
         then [(js "Interaction Patterns", firstn 3 (skipn 3 l))] else []) ++
        (if (6 <? List.length l)%nat then [(js "Content Strategy", skipn 6 l)] else []))).
Proof.
  split.
  - intros Hp Hne s. unfold HMW.parseHMWThemes. rewrite Hp. cbn [bind]. fold s.
    assert (Hpos : (0 <? List.length s)%nat = true).
    { unfold s. destruct (HMW.fallback_statements content) eqn:E;
        [congruence | reflexivity]. }
    change (JsObj.keys_length (@nil (jstr * list jstr))) with 0%nat.
    cbn [Nat.eqb]. rewrite Hpos. unfold HMW.bucket.
    destruct (4 <? List.length s)%nat, (8 <? List.length s)%nat; reflexivity.
  - intros Hp Hne l. unfold Layout.parseLayoutThemes. rewrite Hp. cbn [bind]. fold l.
    assert (Hpos : (0 <? List.length l)%nat = true).
    { unfold l. destruct (Layout.fallback_layouts content) eqn:E;
        [congruence | reflexivity]. }
    change (JsObj.keys_length (@nil (jstr * list Layout.layout))) with 0%nat.
    cbn [Nat.eqb]. rewrite Hpos. unfold Layout.bucket.
    destruct (3 <? List.length l)%nat, (6 <? List.length l)%nat; reflexivity.
Qed.

(** Witness for C6: both premises hold at concrete replies. *)
Lemma C6_witness :
  HMW.primary thirteen_bullets = inr [] /\
  HMW.fallback_statements thirteen_bullets <> [] /\
  Layout.primary two_layout_sections = inr [] /\
  Layout.fallback_layouts two_layout_sections <> [] /\
  (let s := HMW.fallback_statements thirteen_bullets in
   HMW.parseHMWThemes thirteen_bullets =
   inr ([(js "Reframing", firstn 4 s)] ++
        (if (4 <? List.length s)%nat then [(js "Exploration", firstn 4 (skipn 4 s))] else []) ++
        (if (8 <? List.length s)%nat then [(js "Innovation", skipn 8 s)] else []))) /\
  (let l := Layout.fallback_layouts two_layout_sections in
   Layout.parseLayoutThemes two_layout_sections =
   inr ([(js "Information Architecture", firstn 3 l)] ++
        (if (3 <? List.length l)%nat
         then [(js "Interaction Patterns", firstn 3 (skipn 3 l))] else []) ++
        (if (6 <? List.length l)%nat then [(js "Content Strategy", skipn 6 l)] else []))).
Proof.
  assert (H1 : HMW.primary thirteen_bullets = inr []) by (vm_compute; reflexivity).
  assert (H2 : HMW.fallback_statements thirteen_bullets <> [])
    by (vm_compute; discriminate).
  assert (H3 : Layout.primary two_layout_sections = inr []) by (vm_compute; reflexivity).
  assert (H4 : Layout.fallback_layouts two_layout_sections <> [])
    by (vm_compute; discriminate).
  split; [exact H1|]. split; [exact H2|]. split; [exact H3|]. split; [exact H4|].
  split.
  - exact (proj1 (C6_tier1_buckets thirteen_bullets) H1 H2).
  - exact (proj2 (C6_tier1_buckets two_layout_sections) H3 H4).
Defined.

(** * Further properties of the module *)

(** ** Helper lemmas *)

Lemma inr_eq {A B} (x y : B) : @inr A B x = inr y -> x = y.
Proof. congruence. Qed.

Lemma startsWith_prefix s p : startsWith s p = true -> s = p ++ skipn (List.length p) s.
Proof.
  revert s; induction p as [|c p IH]; intros s H; [reflexivity|].
  destruct s as [|d s]; simpl in H; [discriminate|].
  apply andb_true_iff in H as [H1 H2]. apply Z.eqb_eq in H1. subst d.
  simpl. f_equal. apply IH, H2.
Qed.

Lemma not_in_of_existsb x l : existsb (Z.eqb x) l = false -> ~ In x l.
Proof.
  intros H Hin. assert (E : existsb (Z.eqb x) l = true)
    by (apply existsb_exists; exists x; split; [exact Hin | apply Z.eqb_refl]).
  congruence.
Qed.

Lemma in_firstn_in {A} n (l : list A) x : In x (firstn n l) -> In x l.
Proof. intros H. rewrite <- (firstn_skipn n l). apply in_or_app. now left. Qed.

Lemma in_skipn_in {A} n (l : list A) x : In x (skipn n l) -> In x l.
Proof. intros H. rewrite <- (firstn_skipn n l). apply in_or_app. now right. Qed.

Lemma fold_res_invariant {A S} (I : S -> Prop) (f : S -> A -> res S) :
  (forall s a s', I s -> f s a = inr s' -> I s') ->
  forall l s s', I s -> fold_res f l s = inr s' -> I s'.
Proof.
  intros Hf l. induction l as [|a l IH]; cbn [fold_res]; intros s s' Hs H.
  - apply inr_eq in H. now subst.
  - destruct (f s a) as [e|s1] eqn:E; cbn [bind] in H; [discriminate|].
    exact (IH s1 s' (Hf _ _ _ Hs E) H).
Qed.

(** *** Splitting and joining *)

Lemma split_go_not_nil fuel sep s cur : split_go fuel sep s cur <> [].
Proof.
  revert s cur; induction fuel as [|fuel IH]; intros s cur; simpl; [discriminate|].
  destruct s as [|c s']; [discriminate|].
  destruct (startsWith (c :: s') sep); [discriminate | apply IH].
Qed.

Lemma join_cons_not_nil sep x l : l <> [] -> join sep (x :: l) = x ++ sep ++ join sep l.
Proof. destruct l; [contradiction | reflexivity]. Qed.

Lemma split_go_single fuel x a b cur :
  ~ In x a -> (List.length a < fuel)%nat ->
  split_go fuel [x] (a ++ x :: b) cur =
  (rev cur ++ a) :: split_go (fuel - S (List.length a)) [x] b [].
Proof.
  revert fuel cur. induction a as [|y a IH]; intros fuel cur Hx Hl;
    destruct fuel as [|fuel]; simpl in Hl; try lia.
  - simpl. rewrite Z.eqb_refl. simpl. rewrite app_nil_r, Nat.sub_0_r.
    destruct b; reflexivity.
  - assert (Hxy : Z.eqb x y = false)
      by (apply Z.eqb_neq; intros ->; apply Hx; now left).
    simpl. rewrite Hxy. simpl.
    rewrite IH by first [lia | intros H; apply Hx; right; exact H].
    simpl. rewrite <- app_assoc. reflexivity.
Qed.

Lemma split_single x a b : ~ In x a -> split [x] (a ++ x :: b) = a :: split [x] b.
Proof.
  intros Hx. unfold split.
  rewrite split_go_single by first [exact Hx | rewrite length_app; simpl; lia].
  replace (S (List.length (a ++ x :: b)) - S (List.length a))%nat
    with (S (List.length b)) by (rewrite length_app; simpl; lia).
  reflexivity.
Qed.

Lemma includes_single s x : In x s -> includes s [x] = true.
Proof.
  induction s as [|y s IH]; intros H; [destruct H|].
  cbn [includes startsWith]. destruct H as [<-|H].
  - rewrite Z.eqb_refl. destruct s; reflexivity.
  - rewrite (IH H). apply orb_true_r.
Qed.

(** *** The theme maps *)

Lemma all_items_nil {A} (Q : A -> Prop) : all_items Q [].
Proof. intros k l x []. Qed.

Lemma all_items_mono {A} (Q R : A -> Prop) o :
  (forall x, Q x -> R x) -> all_items Q o -> all_items R o.
Proof. intros HQR Ho k l x Hk Hx. exact (HQR x (Ho k l x Hk Hx)). Qed.

Lemma all_items_set {A} (Q : A -> Prop) o k v :
  all_items Q o -> (forall x, In x v -> Q x) -> all_items Q (JsObj.set o k v).
Proof.
  intros Ho Hv. induction o as [|[k' v'] o IH]; cbn [JsObj.set].
  - intros k1 l x [E|[]] Hx. inversion E; subst. auto.
  - destruct (JsObj.jstr_eqb k k').
    + intros k1 l x [E|E] Hx.
      * inversion E; subst. auto.
      * exact (Ho k1 l x (or_intror E) Hx).
    + intros k1 l x [E|E] Hx.
      * exact (Ho k1 l x (or_introl E) Hx).
      * refine (IH _ k1 l x E Hx).
        intros k2 l2 y E2 Hy. exact (Ho k2 l2 y (or_intror E2) Hy).
Qed.

Lemma get_own_in {V} (o : JsObj.t V) k v :
  JsObj.get o k = JsObj.Own v -> exists k', In (k', v) o.
Proof.
  induction o as [|[k' v'] o IH]; cbn [JsObj.get].
  - destruct (existsb _ _); discriminate.
  - destruct (JsObj.jstr_eqb k k').
    + intros H. inversion H; subst. exists k'. now left.
    + intros H. destruct (IH H) as [k2 Hk]. exists k2. now right.
Qed.

Lemma all_items_ensure {A} (Q : A -> Prop) o k :
  all_items Q o -> all_items Q (JsObj.ensure o k).
Proof.
  intros Ho. unfold JsObj.ensure. destruct (JsObj.get o k); auto.
  apply all_items_set; [exact Ho | intros x []].
Qed.

Lemma all_items_push {A} (Q : A -> Prop) o k x o' :
  all_items Q o -> Q x -> JsObj.push o k x = inr o' -> all_items Q o'.
Proof.
  intros Ho Hx. unfold JsObj.push.
  destruct (JsObj.get o k) as [l| |] eqn:E; try discriminate.
  intros H. apply inr_eq in H. subst o'. apply all_items_set; [exact Ho|].
  destruct (get_own_in o k l E) as [k' Hk].
  intros y Hy. apply in_app_or in Hy as [Hy|[Hy|[]]].
  - exact (Ho k' l y Hk Hy).
  - now subst.
Qed.

(** *** The replacement pattern of [fillTemplate] *)

Lemma get_substitution_literal m b a r :
  ~ In Template.DOLLAR r -> Template.get_substitution m b a r = r.
Proof.
  induction r as [|c r IH]; intros H; [reflexivity|].
  assert (Hc : Z.eqb c Template.DOLLAR = false)
    by (apply Z.eqb_neq; intros ->; apply H; now left).
  cbn [Template.get_substitution].
  destruct r as [|d r']; [reflexivity|].
  rewrite Hc. f_equal. apply IH. intros H'. apply H. now right.
Qed.

Lemma get_substitution_match_ref m b a pre post :
  ~ In Template.DOLLAR pre -> ~ In Template.DOLLAR post ->
  Template.get_substitution m b a (pre ++ js "$&" ++ post) = pre ++ m ++ post.
Proof.
  intros Hpre Hpost. induction pre as [|c pre IH].
  - cbn. rewrite get_substitution_literal by exact Hpost. reflexivity.
  - assert (Hc : Z.eqb c Template.DOLLAR = false)
      by (apply Z.eqb_neq; intros ->; apply Hpre; now left).
    cbn [Template.get_substitution app].
    destruct (pre ++ js "$&" ++ post) as [|d r'] eqn:E.
    + destruct pre; discriminate.
    + rewrite Hc. rewrite IH by (intros H; apply Hpre; now right). reflexivity.
Qed.

(** Replacing with a value whose substitution does not depend on the match
    position is splitting on the placeholder and joining with it. *)
Lemma replace_go_split fuel rv R consumed s cur :
  (forall before after,
     Template.get_substitution Template.PLACEHOLDER before after rv = R) ->
  join R (split_go fuel Template.PLACEHOLDER s cur) =
  rev cur ++ Template.replace_go fuel rv consumed s.
Proof.
  intros HR. revert consumed s cur. induction fuel as [|fuel IH]; intros consumed s cur.
  - reflexivity.
  - destruct s as [|c s'].
    + simpl. now rewrite app_nil_r.
    + cbn [split_go Template.replace_go].
      destruct (startsWith (c :: s') Template.PLACEHOLDER).
      * rewrite join_cons_not_nil by apply split_go_not_nil.
        rewrite (IH (consumed ++ Template.PLACEHOLDER) _ []), HR. reflexivity.
      * rewrite (IH (consumed ++ [c]) s' (c :: cur)). simpl.
        rewrite <- app_assoc. reflexivity.
Qed.

Lemma replace_go_absent fuel rv consumed s :
  includes s Template.PLACEHOLDER = false -> Template.replace_go fuel rv consumed s = s.
Proof.
  revert consumed s; induction fuel as [|fuel IH]; intros consumed s H; [reflexivity|].
  destruct s as [|c s']; [reflexivity|].
  cbn [Template.replace_go]. cbn [includes] in H.
  apply orb_false_iff in H as [H1 H2]. rewrite H1. f_equal. exact (IH _ _ H2).
Qed.

(** *** Reframe statements *)

Lemma normalize_how_might_we t c : HMW.normalize t = Some c -> how_might_we_form c.
Proof.
  unfold HMW.normalize, how_might_we_form. cbv zeta.
  set (cl := strip_prefix_ci hmw_prefixes t). intros H.
  destruct (truthy cl && _); [|discriminate].
  apply some_eq in H. subst c.
  destruct (startsWith (toLowerCase cl) (js "how might we")) eqn:Eh; [exact Eh|].
  change (js "How might we " ++ toLowerCase cl) with (HOW_MIGHT_WE ++ [32] ++ toLowerCase cl).
  rewrite lower_prefixed. apply starts_how_might_we.
Qed.

Lemma fallback_clean_how_might_we y :
  truthy (HMW.fallback_clean y) = true -> how_might_we_form (HMW.fallback_clean y).
Proof.
  unfold HMW.fallback_clean, how_might_we_form. cbv zeta.
  set (cl := strip_prefix_ci hmw_prefixes (trim y)).
  destruct (truthy cl) eqn:Et.
  - destruct (startsWith (toLowerCase cl) (js "how might we")) eqn:Eh;
      cbn [andb negb]; intros _; [exact Eh|].
    change (js "How might we " ++ toLowerCase cl) with (HOW_MIGHT_WE ++ [32] ++ toLowerCase cl).
    rewrite lower_prefixed. apply starts_how_might_we.
  - cbn [andb]. intros H. rewrite Et in H. discriminate.
Qed.

Lemma HMW_step_phrase st line st' :
  all_items how_might_we_form (HMW.themes st) -> HMW.step st line = inr st' ->
  all_items how_might_we_form (HMW.themes st').
Proof.
  intros Hi. unfold HMW.step. cbv zeta.
  destruct (negb (truthy (trim line))).
  { intros H. apply inr_eq in H. now subst. }
  destruct (is_theme_header (trim line)).
  { destruct (header_name (trim line)); intros H; apply inr_eq in H; subst;
      cbn [HMW.themes]; [apply all_items_ensure|]; exact Hi. }
  destruct (includes (trim line) [COLON] && negb (has_digit (before_colon (trim line)))).
  { destruct (List.length (trim (before_colon (trim line))) <? 50)%nat;
      intros H; apply inr_eq in H; subst; cbn [HMW.themes]; [apply all_items_ensure|];
      exact Hi. }
  destruct (HMW.currentTheme st) as [ct|]; [|intros H; apply inr_eq in H; now subst].
  destruct (truthy ct); [|intros H; apply inr_eq in H; now subst].
  destruct (HMW.normalize (trim line)) as [c|] eqn:En;
    [|intros H; apply inr_eq in H; now subst].
  destruct (JsObj.push (HMW.themes st) ct c) as [e|th] eqn:Ep; cbn [bind]; [discriminate|].
  intros H. apply inr_eq in H. subst st'. cbn [HMW.themes].
  exact (all_items_push _ _ _ _ _ Hi (normalize_how_might_we _ _ En) Ep).
Qed.

Lemma HMW_primary_phrase content th :
  HMW.primary content = inr th -> all_items how_might_we_form th.
Proof.
  unfold HMW.primary.
  destruct (fold_res HMW.step (split [NL] content) HMW.init) as [e|st] eqn:E;
    cbn [bind]; [discriminate|].
  intros H. apply inr_eq in H. subst th.
  refine (fold_res_invariant (fun st => all_items how_might_we_form (HMW.themes st))
            HMW.step HMW_step_phrase _ _ _ _ E).
  apply all_items_nil.
Qed.

Lemma fallback_statements_phrase content x :
  In x (HMW.fallback_statements content) -> how_might_we_form x.
Proof.
  unfold HMW.fallback_statements. intros H.
  apply filter_In in H as [H Ht]. apply in_map_iff in H as [y [<- _]].
  exact (fallback_clean_how_might_we y Ht).
Qed.

Lemma HMW_placeholder_phrase x : In x HMW.placeholder -> how_might_we_form x.
Proof.
  unfold HMW.placeholder. cbn [map]. intros [<-|[<-|[<-|[]]]]; vm_compute; reflexivity.
Qed.

Lemma HMW_bucket_phrase th sts :
  all_items how_might_we_form th -> (forall x, In x sts -> how_might_we_form x) ->
  all_items how_might_we_form (HMW.bucket th sts).
Proof.
  intros Hth Hs. unfold HMW.bucket. cbv zeta.
  destruct (4 <? List.length sts)%nat, (8 <? List.length sts)%nat;
    repeat (apply all_items_set;
            [| intros x Hx; apply Hs; eauto using in_firstn_in, in_skipn_in]);
    exact Hth.
Qed.

(** *** Feature records *)

Lemma Feature_step_no_colon line :
  includes (trim line) [COLON] = false -> Feature.step Feature.init line = inr Feature.init.
Proof.
  intros H. unfold Feature.step. cbv zeta.
  destruct (negb (truthy (trim line))); [reflexivity|].
  unfold is_theme_header. rewrite H, andb_false_r. reflexivity.
Qed.

Lemma Feature_fold_no_colon lines :
  Forall (fun line => includes (trim line) [COLON] = false) lines ->
  fold_res Feature.step lines Feature.init = inr Feature.init.
Proof.
  induction 1 as [|line lines Hl _ IH]; [reflexivity|].
  cbn [fold_res]. rewrite (Feature_step_no_colon _ Hl). cbn [bind]. exact IH.
Qed.

(** *** Layouts *)

Lemma flush_titled st b th :
  all_items titled (Layout.themes st) -> Layout.flush st = inr (b, th) ->
  all_items titled th.
Proof.
  intros HI. unfold Layout.flush.
  destruct (Layout.currentLayout st) as [l|], (Layout.currentTheme st) as [ct|];
    try (intros H; apply inr_eq in H; injection H as Hb Ht; subst; exact HI).
  destruct (truthy ct && truthy (Layout.title l)) eqn:E;
    [|intros H; apply inr_eq in H; injection H as Hb Ht; subst; exact HI].
  destruct (JsObj.push (JsObj.ensure (Layout.themes st) ct) ct l) as [e|th'] eqn:Ep;
    cbn [bind]; [discriminate|].
  intros H. apply inr_eq in H. injection H as Hb Ht. subst th'.
  apply andb_true_iff in E as [_ E].
  exact (all_items_push _ _ _ _ _ (all_items_ensure _ _ _ HI) E Ep).
Qed.

Ltac destruct_step H :=
  repeat match type of H with
  | context [bind (Layout.flush ?s) _] =>
      let E := fresh "Ef" in
      destruct (Layout.flush s) as [?e|[?pushed ?th]] eqn:E; cbn [bind] in H
  | context [match ?x with _ => _ end] =>
      destruct x eqn:?; cbv beta iota in H
  end.

Lemma Layout_step_titled st line st' :
  all_items titled (Layout.themes st) -> Layout.step st line = inr st' ->
  all_items titled (Layout.themes st').
Proof.
  intros HI H. unfold Layout.step in H. cbv zeta in H.
  destruct_step H;
    first
      [ discriminate
      | apply inr_eq in H; subst st'; cbn [Layout.themes];
        try apply all_items_ensure;
        first [exact HI | eapply flush_titled; eassumption] ].
Qed.

Lemma Layout_primary_titled content th :
  Layout.primary content = inr th -> all_items titled th.
Proof.
  unfold Layout.primary.
  destruct (fold_res Layout.step (split [NL] content) Layout.init) as [e|st] eqn:E;
    cbn [bind]; [discriminate|].
  destruct (Layout.flush st) as [e|[b th']] eqn:Ef; cbn [bind]; [discriminate|].
  intros H. apply inr_eq in H. subst th'.
  eapply flush_titled; [|exact Ef].
  refine (fold_res_invariant (fun st => all_items titled (Layout.themes st))
            Layout.step Layout_step_titled _ _ _ _ E).
  apply all_items_nil.
Qed.

Lemma fallback_layouts_described content x :
  In x (Layout.fallback_layouts content) -> truthy (Layout.description x) = true.
Proof.
  unfold Layout.fallback_layouts. intros H.
  apply in_flat_map in H as [sec [_ Hs]].
  destruct (Layout.section_layout sec) as [l|] eqn:E; [|destruct Hs].
  destruct Hs as [<-|[]].
  unfold Layout.section_layout in E. cbv zeta in E.
  destruct (filter truthy (map trim (split [NL] sec))) as [|first rest]; [discriminate|].
  apply some_eq in E. subst l. cbn [Layout.description].
  destruct (truthy (join (js " ") rest)) eqn:Ed; [exact Ed | reflexivity].
Qed.

Lemma Layout_bucket_items (Q : Layout.layout -> Prop) th ls :
  all_items Q th -> (forall x, In x ls -> Q x) -> all_items Q (Layout.bucket th ls).
Proof.
  intros Hth Hs. unfold Layout.bucket. cbv zeta.
  destruct (3 <? List.length ls)%nat, (6 <? List.length ls)%nat;
    repeat (apply all_items_set;
            [| intros x Hx; apply Hs; eauto using in_firstn_in, in_skipn_in]);
    exact Hth.
Qed.

(** *** User segments *)

Lemma flat_map_option_length {A B} (f : A -> option B) l :
  (List.length (flat_map (fun a => match f a with Some b => [b] | None => [] end) l)
   <= List.length l)%nat.
Proof.
  induction l as [|a l IH]; cbn [flat_map List.length]; [lia|].
  destruct (f a); cbn [app List.length]; lia.
Qed.

Lemma segment_of_content part sg :
  Segments.segment_of part = Some sg ->
  Segments.persona_of sg <> None \/ Segments.scenarios sg <> [].
Proof.
  intros H. unfold Segments.segment_of in H. cbv zeta in H.
  repeat match type of H with
  | context [match ?x with _ => _ end] => destruct x eqn:?; cbv beta iota in H
  end;
  first [ discriminate
        | apply some_eq in H; subst sg; cbn [Segments.persona_of Segments.scenarios];
          first [left; discriminate | right; discriminate] ].
Qed.

(** *** The generators *)

Lemma generate_text_no_client {A} env name label describe (parse : jstr -> res A) ch e :
  Gen.getClient env = inl e -> Gen.generate_text env name label describe parse ch = inl e.
Proof. intros H. unfold Gen.generate_text. rewrite H. reflexivity. Qed.

Lemma generate_text_no_template {A} env name label describe (parse : jstr -> res A) ch :
  Gen.getClient env = inr tt ->
  Gen.template_file env (Gen.prompts_dir env ++ js "/" ++ name ++ js "_prompt.txt") = None ->
  Gen.generate_text env name label describe parse ch =
  inl (JsError (js "Prompt template not found: " ++
                Gen.prompts_dir env ++ js "/" ++ name ++ js "_prompt.txt")).
Proof.
  intros Hc Ht. unfold Gen.generate_text, Gen.loadPromptTemplate. rewrite Hc. cbn [bind].
  rewrite Ht. reflexivity.
Qed.

Lemma generate_text_rejected {A} env name label describe (parse : jstr -> res A) ch t e :
  Gen.getClient env = inr tt ->
  Gen.template_file env (Gen.prompts_dir env ++ js "/" ++ name ++ js "_prompt.txt") = Some t ->
  Gen.chat env (Gen.TextReq name t ch) = Gen.Rejected e ->
  Gen.generate_text env name label describe parse ch = inl (JsError (label ++ describe e)).
Proof.
  intros Hc Ht He. unfold Gen.generate_text, Gen.loadPromptTemplate. rewrite Hc. cbn [bind].
  rewrite Ht. cbn [bind]. rewrite He. reflexivity.
Qed.

Lemma generate_text_rejected_any {A} env name label describe (parse : jstr -> res A) ch e :
  Gen.getClient env = inr tt ->
  Gen.template_file env (Gen.prompts_dir env ++ js "/" ++ name ++ js "_prompt.txt") <> None ->
  (forall tpl, Gen.chat env (Gen.TextReq name tpl ch) = Gen.Rejected e) ->
  Gen.generate_text env name label describe parse ch = inl (JsError (label ++ describe e)).
Proof.
  intros Hc Ht He.
  destruct (Gen.template_file env _) as [t|] eqn:Et; [|contradiction].
  exact (generate_text_rejected _ _ _ _ _ _ t _ Hc Et (He t)).
Qed.

Lemma strip_prefix_trimmed ps t : trim t = t -> trim (strip_prefix ps t) = strip_prefix ps t.
Proof.
  induction ps as [|p ps IH]; cbn [strip_prefix]; intros Ht; [exact Ht|].
  destruct (startsWith t p); [apply trim_idem | exact (IH Ht)].
Qed.

Lemma Layout_placeholder_titled x : In x Layout.placeholder -> titled x.
Proof. unfold Layout.placeholder. intros [<-|[<-|[<-|[]]]]; reflexivity. Qed.

(** ** [fillTemplate] *)

(** A template without the placeholder is returned unchanged, whatever the
    challenge. *)
Theorem fillTemplate_without_placeholder t c :
  includes t Template.PLACEHOLDER = false -> Template.fillTemplate t c = t.
Proof. intros H. exact (replace_go_absent _ c [] t H). Qed.

Lemma fillTemplate_without_placeholder_witness :
  let t := js "Describe the riders of the route." in
  includes t Template.PLACEHOLDER = false /\
  Template.fillTemplate t (js "Make $& stops safer") = t.
Proof.
  intros t. assert (H : includes t Template.PLACEHOLDER = false) by (vm_compute; reflexivity).
  split; [exact H | exact (fillTemplate_without_placeholder t _ H)].
Defined.

(** A challenge without a [$] replaces every placeholder by itself: the
    result is the template split on the placeholder and joined with the
    challenge. *)
Theorem fillTemplate_plain_challenge t c :
  ~ In Template.DOLLAR c -> Template.fillTemplate t c = join c (split Template.PLACEHOLDER t).
Proof.
  intros H. unfold Template.fillTemplate, split.
  rewrite (replace_go_split _ c c [] t [] (fun b a => get_substitution_literal _ b a c H)).
  reflexivity.
Qed.

Lemma fillTemplate_plain_challenge_witness :
  let t := js "Challenge: {{challenge}}. Restate {{challenge}}" in
  let c := js "Reduce wait times" in
  ~ In Template.DOLLAR c /\
  Template.fillTemplate t c = join c (split Template.PLACEHOLDER t).
Proof.
  intros t c.
  assert (H : ~ In Template.DOLLAR c) by (apply not_in_of_existsb; vm_compute; reflexivity).
  split; [exact H | exact (fillTemplate_plain_challenge t c H)].
Defined.

(** A [$&] in the challenge stands for the matched placeholder, which is
    therefore put back into the prompt. *)
Theorem fillTemplate_match_reference t pre post :
  ~ In Template.DOLLAR pre -> ~ In Template.DOLLAR post ->
  Template.fillTemplate t (pre ++ js "$&" ++ post) =
  join (pre ++ Template.PLACEHOLDER ++ post) (split Template.PLACEHOLDER t).
Proof.
  intros H1 H2. unfold Template.fillTemplate, split.
  rewrite (replace_go_split _ (pre ++ js "$&" ++ post) (pre ++ Template.PLACEHOLDER ++ post)
             [] t [] (fun b a => get_substitution_match_ref _ b a pre post H1 H2)).
  reflexivity.
Qed.

Lemma fillTemplate_match_reference_witness :
  let t := js "Challenge: {{challenge}}" in
  let pre := js "Save " in
  let post := js " on fares" in
  ~ In Template.DOLLAR pre /\ ~ In Template.DOLLAR post /\
  Template.fillTemplate t (pre ++ js "$&" ++ post) =
  join (pre ++ Template.PLACEHOLDER ++ post) (split Template.PLACEHOLDER t) /\
  Template.fillTemplate t (pre ++ js "$&" ++ post) =
  js "Challenge: Save {{challenge}} on fares".
Proof.
  intros t pre post.
  assert (H1 : ~ In Template.DOLLAR pre) by (apply not_in_of_existsb; vm_compute; reflexivity).
  assert (H2 : ~ In Template.DOLLAR post) by (apply not_in_of_existsb; vm_compute; reflexivity).
  split; [exact H1|]. split; [exact H2|].
  split; [exact (fillTemplate_match_reference t pre post H1 H2) | vm_compute; reflexivity].
Defined.

(** ** Reply parsers *)

(** Every statement in every theme returned by [parseHMWThemes] starts
    with "how might we", ignoring case: primary items, tier-1 statements
    and placeholders alike. *)
Theorem parseHMWThemes_statements_phrase content th :
  HMW.parseHMWThemes content = inr th ->
  forall k l s, In (k, l) th -> In s l -> startsWith (toLowerCase s) (js "how might we") = true.
Proof.
  unfold HMW.parseHMWThemes.
  destruct (HMW.primary content) as [e|th1] eqn:Ep; cbn [bind]; [discriminate|].
  intros H. apply inr_eq in H. subst th.
  pose proof (HMW_primary_phrase _ _ Ep) as H1.
  match goal with |- forall k l s, In (k, l) ?t -> _ =>
    cut (all_items how_might_we_form t); [intros Ht k l s; exact (Ht k l s)|] end.
  repeat match goal with |- context [if ?b then _ else _] => destruct b end;
  repeat first [ apply all_items_set | apply HMW_bucket_phrase | exact H1
               | exact HMW_placeholder_phrase | exact (fallback_statements_phrase content) ].
Qed.

Lemma parseHMWThemes_statements_phrase_witness :
  HMW.parseHMWThemes reframe_reply_with_colon_line =
    inr [(js "Safety", []);
         (js "Lighting", [js "How might we improve lighting at stops"])] /\
  forall k l s,
    In (k, l) [(js "Safety", []);
               (js "Lighting", [js "How might we improve lighting at stops"])] ->
    In s l -> startsWith (toLowerCase s) (js "how might we") = true.
Proof.
  assert (H : HMW.parseHMWThemes reframe_reply_with_colon_line =
    inr [(js "Safety", []);
         (js "Lighting", [js "How might we improve lighting at stops"])])
    by (vm_compute; reflexivity).
  split; [exact H | exact (parseHMWThemes_statements_phrase _ _ H)].
Defined.

(** A feature reply none of whose lines holds a colon opens no theme, so
    its numbered items are all dropped and the placeholder is returned:
    unlike the reframe parser, the feature parser has no re-scan. *)
Theorem parseFeatureThemes_no_colon_placeholder content :
  Forall (fun line => includes (trim line) [COLON] = false) (split [NL] content) ->
  Feature.parseFeatureThemes content = inr [(js "Feature Ideas", Feature.placeholder)].
Proof.
  intros H. unfold Feature.parseFeatureThemes, Feature.primary.
  rewrite (Feature_fold_no_colon _ H). reflexivity.
Qed.

Lemma parseFeatureThemes_no_colon_placeholder_witness :
  let c := js "1. Live arrival map - riders plan trips" ++ [NL] ++ js "2. Heated bench" in
  Forall (fun line => includes (trim line) [COLON] = false) (split [NL] c) /\
  Feature.parseFeatureThemes c = inr [(js "Feature Ideas", Feature.placeholder)].
Proof.
  intros c.
  assert (H : Forall (fun line => includes (trim line) [COLON] = false) (split [NL] c)).
  { assert (Hs : split [NL] c = [js "1. Live arrival map - riders plan trips";
                                 js "2. Heated bench"]) by (vm_compute; reflexivity).
    rewrite Hs. repeat (apply Forall_cons; [vm_compute; reflexivity|]). apply Forall_nil. }
  split; [exact H | exact (parseFeatureThemes_no_colon_placeholder c H)].
Defined.

(** A feature text with two em dashes is cut at both: the name is the text
    before the first, the rationale the text between them, and the rest is
    dropped ([split('—', 2)]). *)
Theorem record_of_second_em_dash a b c :
  ~ In EMDASH a -> ~ In EMDASH b ->
  Feature.record_of (a ++ EMDASH :: b ++ EMDASH :: c) = Feature.mkF (trim a) (trim b).
Proof.
  intros Ha Hb. unfold Feature.record_of.
  rewrite includes_single by (apply in_or_app; right; now left).
  unfold split2. rewrite split_single by exact Ha. rewrite split_single by exact Hb.
  reflexivity.
Qed.

Lemma record_of_second_em_dash_witness :
  let a := js "Live map " in
  let b := js " riders plan trips " in
  let c := js " and it saves time" in
  ~ In EMDASH a /\ ~ In EMDASH b /\
  Feature.record_of (a ++ EMDASH :: b ++ EMDASH :: c) = Feature.mkF (trim a) (trim b) /\
  Feature.mkF (trim a) (trim b) = Feature.mkF (js "Live map") (js "riders plan trips").
Proof.
  intros a b c.
  assert (Ha : ~ In EMDASH a) by (apply not_in_of_existsb; vm_compute; reflexivity).
  assert (Hb : ~ In EMDASH b) by (apply not_in_of_existsb; vm_compute; reflexivity).
  split; [exact Ha|]. split; [exact Hb|].
  split; [exact (record_of_second_em_dash a b c Ha Hb) | vm_compute; reflexivity].
Defined.

(** When the primary layout pass finds a theme, [parseLayoutThemes]
    returns its result as is, and every layout in it has a non-empty
    title. *)
Theorem Layout_primary_titles content th :
  Layout.primary content = inr th -> th <> [] ->
  Layout.parseLayoutThemes content = inr th /\
  forall k l x, In (k, l) th -> In x l -> truthy (Layout.title x) = true.
Proof.
  intros Hp Hne. split; [|exact (Layout_primary_titled _ _ Hp)].
  unfold Layout.parseLayoutThemes. rewrite Hp. cbn [bind].
  destruct th as [|kv th']; [contradiction | reflexivity].
Qed.

Lemma Layout_primary_titles_witness :
  let th := [(js "Safety", [Layout.mkL (js "Lighting: better lamps at night")
                                       (js "Lamps along the curb")])] in
  Layout.primary layout_reply_with_colon_line = inr th /\ th <> [] /\
  Layout.parseLayoutThemes layout_reply_with_colon_line = inr th /\
  forall k l x, In (k, l) th -> In x l -> truthy (Layout.title x) = true.
Proof.
  intros th.
  assert (H1 : Layout.primary layout_reply_with_colon_line = inr th) by (vm_compute; reflexivity).
  assert (H2 : th <> []) by discriminate.
  split; [exact H1|]. split; [exact H2|].
  exact (Layout_primary_titles _ _ H1 H2).
Defined.

(** No layout returned by [parseLayoutThemes] is blank: it has a
    non-empty title (primary pass, placeholders) or a non-empty
    description (tier-1 sections). *)
Theorem parseLayoutThemes_no_blank_layout content th :
  Layout.parseLayoutThemes content = inr th ->
  forall k l x, In (k, l) th -> In x l ->
  truthy (Layout.title x) = true \/ truthy (Layout.description x) = true.
Proof.
  unfold Layout.parseLayoutThemes.
  destruct (Layout.primary content) as [e|th1] eqn:Ep; cbn [bind]; [discriminate|].
  intros H. apply inr_eq in H. subst th.
  pose proof (all_items_mono titled
                (fun x => truthy (Layout.title x) = true \/ truthy (Layout.description x) = true)
                th1 (fun x H => or_introl H) (Layout_primary_titled _ _ Ep)) as H1.
  match goal with |- forall k l x, In (k, l) ?t -> _ =>
    cut (all_items (fun x => truthy (Layout.title x) = true \/
                             truthy (Layout.description x) = true) t);
    [intros Ht k l x; exact (Ht k l x)|] end.
  repeat match goal with |- context [if ?b then _ else _] => destruct b end;
  repeat first [ apply all_items_set | apply Layout_bucket_items | exact H1
               | intros x Hx; left; exact (Layout_placeholder_titled x Hx)
               | intros x Hx; right; exact (fallback_layouts_described content x Hx) ].
Qed.

Lemma parseLayoutThemes_no_blank_layout_witness :
  let th := [(js "Information Architecture",
              [Layout.mkL (js "Card grid") (js "Shows listings in tiles");
               Layout.mkL (js "Map view") (js "Pins on a map")])] in
  Layout.parseLayoutThemes two_layout_sections = inr th /\
  forall k l x, In (k, l) th -> In x l ->
  truthy (Layout.title x) = true \/ truthy (Layout.description x) = true.
Proof.
  intros th.
  assert (H : Layout.parseLayoutThemes two_layout_sections = inr th) by (vm_compute; reflexivity).
  split; [exact H | exact (parseLayoutThemes_no_blank_layout _ _ H)].
Defined.

(** Every explanation returned by [parseSketchConcepts] is non-empty and
    has no surrounding white space. *)
Theorem parseSketchConcepts_trimmed content e :
  In e (Concepts.parseSketchConcepts content) -> truthy e = true /\ trim e = e.
Proof.
  unfold Concepts.parseSketchConcepts. cbv zeta. intros H.
  apply in_firstn_in, in_app_or in H as [H|H].
  - apply filter_In in H as [H Ht]. apply in_map_iff in H as [y [<- _]].
    split; [exact Ht | apply trim_idem].
  - apply repeat_spec in H. subst e. split; vm_compute; reflexivity.
Qed.

Lemma parseSketchConcepts_trimmed_witness :
  In (js "Live arrival information")
     (Concepts.parseSketchConcepts (js "1.   Live arrival information  ")) /\
  truthy (js "Live arrival information") = true /\
  trim (js "Live arrival information") = js "Live arrival information".
Proof.
  assert (H : In (js "Live arrival information")
                 (Concepts.parseSketchConcepts (js "1.   Live arrival information  ")))
    by (vm_compute; left; reflexivity).
  split; [exact H | exact (parseSketchConcepts_trimmed _ _ H)].
Defined.

(** Every visual prompt returned by [generateSketchPrompts], the prompts
    sent to the image service, is non-empty and has no surrounding white
    space. *)
Theorem generateSketchPrompts_trimmed env ch s p :
  Gen.generateSketchPrompts env ch = inr s -> In p s -> truthy p = true /\ trim p = p.
Proof.
  intros Hs Hp. destruct (generateSketchPrompts_shape _ _ _ Hs) as [c ->].
  unfold Sketch.prompts_of_content in Hp. cbv zeta in Hp.
  destruct (3 <=? List.length (Sketch.parsed_prompts c))%nat.
  - apply in_firstn_in in Hp. unfold Sketch.parsed_prompts in Hp.
    apply filter_In in Hp as [Hp Ht]. apply in_map_iff in Hp as [y [<- _]].
    split; [exact Ht|]. unfold Sketch.clean. apply strip_prefix_trimmed, trim_idem.
  - unfold Sketch.placeholder in Hp. cbn [map] in Hp.
    destruct Hp as [<-|[<-|[<-|[]]]]; split; vm_compute; reflexivity.
Qed.

Lemma generateSketchPrompts_trimmed_witness :
  let s := [js "A bus shelter with a live map"; js "A heated bench";
            js "Solar lighting under the roof"] in
  Gen.generateSketchPrompts (Samples.env None false None) Samples.challenge = inr s /\
  In (js "A heated bench") s /\
  truthy (js "A heated bench") = true /\ trim (js "A heated bench") = js "A heated bench".
Proof.
  intros s.
  assert (H1 : Gen.generateSketchPrompts (Samples.env None false None) Samples.challenge = inr s)
    by (vm_compute; reflexivity).
  assert (H2 : In (js "A heated bench") s) by (right; left; reflexivity).
  split; [exact H1|]. split; [exact H2|].
  exact (generateSketchPrompts_trimmed _ _ _ _ H1 H2).
Defined.

(** Every segment returned by [parseUserSegments] has a persona or at
    least one scenario. *)
Theorem parseUserSegments_segment_content content sg :
  In sg (Segments.parseUserSegments content) ->
  Segments.persona_of sg <> None \/ Segments.scenarios sg <> [].
Proof.
  unfold Segments.parseUserSegments. cbv zeta.
  destruct (flat_map _ _) as [|s0 rest] eqn:E.
  - intros [<-|[]]. left. discriminate.
  - rewrite <- E. intros H. apply in_flat_map in H as [part [_ Hp]].
    destruct (Segments.segment_of part) as [s1|] eqn:Es; [|destruct Hp].
    destruct Hp as [<-|[]]. exact (segment_of_content _ _ Es).
Qed.

Lemma parseUserSegments_segment_content_witness :
  let c := js "User Segment 1: Night commuters" ++ [NL] ++ js "Persona:" ++ [NL] ++
           js "Maria: a nurse on night shifts" ++ [NL] ++ js "Key Scenarios:" ++ [NL] ++
           js "1. Waiting alone after dark" in
  let sg := Segments.mkS (js "Night commuters")
              (Some (Segments.mkP (js "Maria") (js "Maria: a nurse on night shifts")))
              [js "Waiting alone after dark"] in
  In sg (Segments.parseUserSegments c) /\
  (Segments.persona_of sg <> None \/ Segments.scenarios sg <> []).
Proof.
  intros c sg.
  assert (H : In sg (Segments.parseUserSegments c)) by (vm_compute; left; reflexivity).
  split; [exact H | exact (parseUserSegments_segment_content c sg H)].
Defined.

(** [parseUserSegments] returns at most one segment per ["User Segment"]
    marker, and the single fallback segment when there is none. *)
Theorem parseUserSegments_at_most_markers content :
  (List.length (Segments.parseUserSegments content) <=
   Nat.max 1 (List.length (split (js "User Segment") content) - 1))%nat.
Proof.
  unfold Segments.parseUserSegments. cbv zeta.
  pose proof (flat_map_option_length Segments.segment_of
                (tl (split (js "User Segment") content))) as H.
  assert (Ht : List.length (tl (split (js "User Segment") content)) =
               (List.length (split (js "User Segment") content) - 1)%nat)
    by (destruct (split (js "User Segment") content); cbn [tl List.length]; lia).
  rewrite Ht in H.
  destruct (flat_map _ _) as [|s0 rest]; cbn [List.length] in *; lia.
Qed.

(** ** Generators and orchestrator *)

(** Without a (non-empty) API key every call fails before any request with
    the unwrapped key error: [generateAll] rejects with it, and so do
    [generateImages] and even [generateSketchConcepts], whose [getClient]
    call is outside its [try]. *)
Theorem missing_api_key_fails env ch ps r :
  truthy_opt (Gen.api_key env) = false ->
  (Gen.generateAll env ch r ->
   r = inl (JsError (js "OPENAI_API_KEY not found in environment. Set it in .env file or environment variables."))) /\
  Gen.generateImages env ps =
    inl (JsError (js "OPENAI_API_KEY not found in environment. Set it in .env file or environment variables.")) /\
  Gen.generateSketchConcepts env ch ps =
    inl (JsError (js "OPENAI_API_KEY not found in environment. Set it in .env file or environment variables.")).
Proof.
  intros Hk.
  assert (Hc : Gen.getClient env =
    inl (JsError (js "OPENAI_API_KEY not found in environment. Set it in .env file or environment variables."))).
  { unfold Gen.getClient. destruct (Gen.api_key env) as [k|]; [cbn [truthy_opt] in Hk; rewrite Hk|];
      reflexivity. }
  split; [|split; unfold Gen.generateImages, Gen.generateSketchConcepts; rewrite Hc; reflexivity].
  intros Hr. destruct Hr as [h f s l u H1 H2 H3 H4 H5 | e He].
  - unfold Gen.generateHMWStatements in H1.
    rewrite (generate_text_no_client _ _ _ _ _ _ _ Hc) in H1. discriminate.
  - unfold Gen.text_stage, Gen.generateHMWStatements, Gen.generateFeatureIdeas,
      Gen.generateSketchPrompts, Gen.generateLayoutSuggestions, Gen.generateUserContext in He.
    repeat rewrite (generate_text_no_client _ _ _ _ _ _ _ Hc) in He.
    cbn [Gen.forget In] in He.
    destruct He as [He|[He|[He|[He|[He|[]]]]]]; injection He as <-; reflexivity.
Qed.

Lemma missing_api_key_fails_witness :
  let env := Gen.mkEnv None (js "/srv/prompts")
               (Gen.template_file (Samples.env None false None))
               (Gen.chat (Samples.env None false None))
               (Gen.image (Samples.env None false None)) in
  let r := inl (JsError (js "OPENAI_API_KEY not found in environment. Set it in .env file or environment variables.")) in
  truthy_opt (Gen.api_key env) = false /\ Gen.generateAll env Samples.challenge r /\
  ((Gen.generateAll env Samples.challenge r ->
    r = inl (JsError (js "OPENAI_API_KEY not found in environment. Set it in .env file or environment variables."))) /\
   Gen.generateImages env [] =
     inl (JsError (js "OPENAI_API_KEY not found in environment. Set it in .env file or environment variables.")) /\
   Gen.generateSketchConcepts env Samples.challenge [] =
     inl (JsError (js "OPENAI_API_KEY not found in environment. Set it in .env file or environment variables."))).
Proof.
  intros env r.
  assert (Hk : truthy_opt (Gen.api_key env) = false) by reflexivity.
  assert (Hr : Gen.generateAll env Samples.challenge r)
    by (apply Gen.generateAll_rejected; vm_compute; left; reflexivity).
  split; [exact Hk|]. split; [exact Hr|].
  exact (missing_api_key_fails env Samples.challenge [] r Hk).
Defined.

(** With a key but no prompt files, [generateAll] rejects with the
    unwrapped "Prompt template not found" error of one of the five
    templates (the template is loaded outside the generator's [try]). *)
Theorem missing_templates_fail env ch r :
  Gen.getClient env = inr tt ->
  (forall path, Gen.template_file env path = None) ->
  Gen.generateAll env ch r ->
  exists name,
    In name [js "hmw"; js "features"; js "visual"; js "layout"; js "user_context"] /\
    r = inl (JsError (js "Prompt template not found: " ++
                      Gen.prompts_dir env ++ js "/" ++ name ++ js "_prompt.txt")).
Proof.
  intros Hc Ht Hr.
  assert (E : forall A name label describe (parse : jstr -> res A),
             Gen.generate_text env name label describe parse ch =
             inl (JsError (js "Prompt template not found: " ++
                           Gen.prompts_dir env ++ js "/" ++ name ++ js "_prompt.txt")))
    by (intros; apply generate_text_no_template; auto).
  destruct Hr as [h f s l u H1 H2 H3 H4 H5 | e He].
  - unfold Gen.generateHMWStatements in H1. rewrite E in H1. discriminate.
  - unfold Gen.text_stage, Gen.generateHMWStatements, Gen.generateFeatureIdeas,
      Gen.generateSketchPrompts, Gen.generateLayoutSuggestions, Gen.generateUserContext in He.
    rewrite !E in He. cbn [Gen.forget In] in He.
    destruct He as [He|[He|[He|[He|[He|[]]]]]]; injection He as <-;
      [ exists (js "hmw") | exists (js "features") | exists (js "visual")
      | exists (js "layout") | exists (js "user_context") ];
      (split; [repeat (first [left; reflexivity | right]) | reflexivity]).
Qed.

Lemma missing_templates_fail_witness :
  let env := Gen.mkEnv (Some (js "sk-test")) (js "/srv/prompts") (fun _ => None)
               (Gen.chat (Samples.env None false None))
               (Gen.image (Samples.env None false None)) in
  let r := inl (JsError (js "Prompt template not found: /srv/prompts/hmw_prompt.txt")) in
  Gen.getClient env = inr tt /\ (forall path, Gen.template_file env path = None) /\
  Gen.generateAll env Samples.challenge r /\
  exists name,
    In name [js "hmw"; js "features"; js "visual"; js "layout"; js "user_context"] /\
    r = inl (JsError (js "Prompt template not found: " ++
                      Gen.prompts_dir env ++ js "/" ++ name ++ js "_prompt.txt")).
Proof.
  intros env r.
  assert (Hc : Gen.getClient env = inr tt) by reflexivity.
  assert (Ht : forall path, Gen.template_file env path = None) by reflexivity.
  assert (Hr : Gen.generateAll env Samples.challenge r)
    by (apply Gen.generateAll_rejected; vm_compute; left; reflexivity).
  split; [exact Hc|]. split; [exact Ht|]. split; [exact Hr|].
  exact (missing_templates_fail env Samples.challenge r Hc Ht Hr).
Defined.

(** When the text service rejects with an SDK error that carries a nested
    message, the reframe generator reports the nested message while the
    four other generators report the outer one, each after its own
    "Failed to generate ..." label. *)
Theorem nested_api_message env ch m msg :
  Gen.getClient env = inr tt ->
  (forall path, Gen.template_file env path <> None) ->
  (forall name tpl, Gen.chat env (Gen.TextReq name tpl ch) = Gen.Rejected (ApiError (Some m) msg)) ->
  truthy m = true ->
  Gen.generateHMWStatements env ch =
    inl (JsError (js "Failed to generate HMW statements: " ++ m)) /\
  Gen.generateFeatureIdeas env ch =
    inl (JsError (js "Failed to generate feature ideas: " ++ msg)) /\
  Gen.generateSketchPrompts env ch =
    inl (JsError (js "Failed to generate sketch prompts: " ++ msg)) /\
  Gen.generateLayoutSuggestions env ch =
    inl (JsError (js "Failed to generate layout suggestions: " ++ msg)) /\
  Gen.generateUserContext env ch =
    inl (JsError (js "Failed to generate user context: " ++ msg)).
Proof.
  intros Hc Ht Hch Hm.
  split; [|split; [|split; [|split]]];
    [ unfold Gen.generateHMWStatements | unfold Gen.generateFeatureIdeas
    | unfold Gen.generateSketchPrompts | unfold Gen.generateLayoutSuggestions
    | unfold Gen.generateUserContext ];
    rewrite (generate_text_rejected_any _ _ _ _ _ _ _ Hc (Ht _) (Hch _)); [|reflexivity..].
  unfold Gen.hmw_error_message. rewrite Hm. reflexivity.
Qed.

Lemma nested_api_message_witness :
  let m := js "Rate limit reached for gpt-4" in
  let msg := js "429 Too Many Requests" in
  let env := Gen.mkEnv (Some (js "sk-test")) (js "/srv/prompts")
               (fun path => Some (js "Prompt " ++ path ++ js " for {{challenge}}"))
               (fun _ => Gen.Rejected (ApiError (Some m) msg))
               (Gen.image (Samples.env None false None)) in
  Gen.getClient env = inr tt /\
  (forall path, Gen.template_file env path <> None) /\
  (forall name tpl, Gen.chat env (Gen.TextReq name tpl Samples.challenge) =
                    Gen.Rejected (ApiError (Some m) msg)) /\
  truthy m = true /\
  Gen.generateHMWStatements env Samples.challenge =
    inl (JsError (js "Failed to generate HMW statements: " ++ m)) /\
  Gen.generateFeatureIdeas env Samples.challenge =
    inl (JsError (js "Failed to generate feature ideas: " ++ msg)) /\
  Gen.generateSketchPrompts env Samples.challenge =
    inl (JsError (js "Failed to generate sketch prompts: " ++ msg)) /\
  Gen.generateLayoutSuggestions env Samples.challenge =
    inl (JsError (js "Failed to generate layout suggestions: " ++ msg)) /\
  Gen.generateUserContext env Samples.challenge =
    inl (JsError (js "Failed to generate user context: " ++ msg)).
Proof.
  intros m msg env.
  assert (Hc : Gen.getClient env = inr tt) by reflexivity.
  assert (Ht : forall path, Gen.template_file env path <> None) by discriminate.
  assert (Hch : forall name tpl, Gen.chat env (Gen.TextReq name tpl Samples.challenge) =
                                 Gen.Rejected (ApiError (Some m) msg)) by reflexivity.
  assert (Hm : truthy m = true) by reflexivity.
  split; [exact Hc|]. split; [exact Ht|]. split; [exact Hch|]. split; [exact Hm|].
  exact (nested_api_message env Samples.challenge m msg Hc Ht Hch Hm).
Defined.

(** [generateImages] only looks at the first three prompts, and on success
    returns one slot for each of them. *)
Theorem generateImages_first_three env ps :
  Gen.generateImages env ps = Gen.generateImages env (firstn 3 ps) /\
  (forall slots, Gen.generateImages env ps = inr slots ->
   List.length slots = Nat.min 3 (List.length ps)).
Proof.
  unfold Gen.generateImages. rewrite firstn_firstn. split; [reflexivity|].
  destruct (Gen.getClient env); cbn [bind]; [discriminate|].
  intros slots H. apply inr_eq in H. subst slots.
  rewrite length_map, length_mapi_from, length_firstn. reflexivity.
Qed.
